(** * Todo App, Phase I core: a shallow embedding of [src/main.py]

    The program is a menu-driven task manager that keeps a list of task
    dictionaries in memory.  This development embeds its helper functions
    as pure functions on lists, its operations and its prompts as
    computations in a small state-and-exception monad over the process
    state (task list, pending standard input, standard output written so
    far), and proves properties of the operations. *)

From Stdlib Require Import ZArith List String Ascii Bool Lia.
From Stdlib Require Import DecimalString.
From Stdlib Require Import DecimalPos.
Import ListNotations.

Local Open Scope Z_scope.
Local Open Scope string_scope.

(** ** Python strings

    A [str] is embedded as a Rocq [string]; each [ascii] stands for the
    code point of the same number, so the embedding covers the texts made
    of code points U+0000 to U+00FF. *)

Module PyStr.

(** [str.isspace] for one character: the code points below 256 that
    Python counts as whitespace. *)
Definition isspace (c : ascii) : bool :=
  let n := N_of_ascii c in
  ((9 <=? n) && (n <=? 13) || (28 <=? n) && (n <=? 32)
   || (n =? 133) || (n =? 160))%N.

Fixpoint lstrip (s : string) : string :=
  match s with
  | EmptyString => EmptyString
  | String c r => if isspace c then lstrip r else s
  end.

Fixpoint rstrip (s : string) : string :=
  match s with
  | EmptyString => EmptyString
  | String c r =>
      match rstrip r with
      | EmptyString => if isspace c then EmptyString else String c EmptyString
      | r' => String c r'
      end
  end.

(** [s.strip()] *)
Definition strip (s : string) : string := rstrip (lstrip s).

(** [s.lower()]: the capital letters below U+0100 are [A] to [Z] and
    U+00C0 to U+00DE without the multiplication sign U+00D7; each has its
    small letter 32 code points further. *)
Definition lower_char (c : ascii) : ascii :=
  let n := N_of_ascii c in
  if ((65 <=? n) && (n <=? 90)
      || (192 <=? n) && (n <=? 222) && negb (n =? 215))%N
  then ascii_of_N (n + 32)
  else c.

Fixpoint lower (s : string) : string :=
  match s with
  | EmptyString => EmptyString
  | String c r => String (lower_char c) (lower r)
  end.

(** Truth value of a string in a condition: non-empty. *)
Definition truthy (s : string) : bool :=
  match s with EmptyString => false | String _ _ => true end.

(** [str(n)] and [f"{n}"] for an integer: decimal digits, with a
    leading minus sign for negative numbers. *)
Definition of_int (n : Z) : string := NilZero.string_of_int (Z.to_int n).

(** Observations on the two ends of a text. *)
Definition starts_with_space (s : string) : bool :=
  match s with EmptyString => false | String c _ => isspace c end.

Fixpoint ends_with_space (s : string) : bool :=
  match s with
  | EmptyString => false
  | String c EmptyString => isspace c
  | String _ r => ends_with_space r
  end.

Fixpoint all_space (s : string) : bool :=
  match s with
  | EmptyString => true
  | String c r => isspace c && all_space r
  end.

End PyStr.

(** ** Tasks and the task list *)

(** A task dictionary [{"id": .., "title": .., "desc": .., "complete": ..}]. *)
Record task : Type := mkTask {
  id : Z;
  title : string;
  desc : string;
  complete : bool
}.

(** Equality of two task dictionaries ([==] on dicts compares every key). *)
Definition task_eqb (a b : task) : bool :=
  (id a =? id b)%Z && String.eqb (title a) (title b)
  && String.eqb (desc a) (desc b) && Bool.eqb (complete a) (complete b).

(** [find_task]: [next((t for t in tasks if t["id"] == task_id), None)]. *)
Fixpoint find_task (tasks : list task) (task_id : Z) : option task :=
  match tasks with
  | [] => None
  | t :: rest => if (id t =? task_id)%Z then Some t else find_task rest task_id
  end.

(** The builtin [max(iterable, default=d)]: the greatest element, and [d]
    only when the iterable is empty. *)
Definition py_max (xs : list Z) (default : Z) : Z :=
  match xs with
  | [] => default
  | x :: rest => fold_left Z.max rest x
  end.

(** [get_next_id]: [max((t["id"] for t in tasks), default=0) + 1]. *)
Definition get_next_id (tasks : list task) : Z :=
  py_max (map id tasks) 0 + 1.

(** [m] is the greatest id present in [tasks]. *)
Definition is_max_id (m : Z) (tasks : list task) : Prop :=
  In m (map id tasks) /\ forall t, In t tasks -> id t <= m.

(** Two task lists hold the same set of ids. *)
Definition same_ids (a b : list task) : Prop :=
  forall k, In k (map id a) <-> In k (map id b).

(** ** Standard streams, exceptions and the process state *)

(** What one call of [input] finds on standard input: a line of text, or
    the user's interrupt (Ctrl+C) arriving while the call waits.  An
    exhausted list is the end of the input stream. *)
Inductive in_event : Type :=
| Line (text : string)
| Interrupt.

(** What the program writes: [print(s)] writes [s] and a newline,
    [input(p)] writes the prompt [p]. *)
Inductive out_event : Type :=
| Printed (text : string)
| Prompted (text : string).

(** The exceptions the program can meet. *)
Inductive exn : Type :=
| ValueError
| KeyboardInterrupt
| EOFError
| SystemExit (code : Z).

(** The process state.  [tasks] is the one list object that [main]
    creates and hands to every operation; every slot of it holds a dict
    object of its own ([add_task] appends a fresh literal), so the list is
    kept by value. *)
Record state : Type := mkState {
  tasks : list task;
  stdin : list in_event;
  stdout : list out_event
}.

Inductive outcome (A : Type) : Type :=
| Ret (a : A)
| Raise (e : exn)
| OutOfFuel.

Arguments Ret {A} a.
Arguments Raise {A} e.
Arguments OutOfFuel {A}.

(** Computations: state passing, with exceptions that keep the state
    reached when they are raised. *)
Definition M (A : Type) : Type := state -> outcome A * state.

Definition ret {A : Type} (a : A) : M A := fun s => (Ret a, s).

Definition bind {A B : Type} (m : M A) (k : A -> M B) : M B :=
  fun s =>
    match m s with
    | (Ret a, s') => k a s'
    | (Raise e, s') => (Raise e, s')
    | (OutOfFuel, s') => (OutOfFuel, s')
    end.

Definition raise {A : Type} (e : exn) : M A := fun s => (Raise e, s).

Definition out_of_fuel {A : Type} : M A := fun s => (OutOfFuel, s).

Declare Scope io_scope.
Delimit Scope io_scope with io.
Notation "x <- m ;; k" := (bind m (fun x => k))
  (at level 100, m at next level, right associativity) : io_scope.
Notation "m ;; k" := (bind m (fun _ => k))
  (at level 100, right associativity) : io_scope.
Local Open Scope io_scope.

(** [try: body except ...: handler]: [handler e] is [None] when no
    clause matches [e]. *)
Definition try_except {A : Type} (body : M A) (handler : exn -> option (M A))
  : M A :=
  fun s =>
    match body s with
    | (Raise e, s') =>
        match handler e with
        | Some h => h s'
        | None => (Raise e, s')
        end
    | r => r
    end.

Definition emit (e : out_event) (s : state) : state :=
  mkState (tasks s) (stdin s) (stdout s ++ [e]).

Definition set_tasks (l : list task) (s : state) : state :=
  mkState l (stdin s) (stdout s).

Definition set_stdin (i : list in_event) (s : state) : state :=
  mkState (tasks s) i (stdout s).

(** [print(text)] *)
Definition print (text : string) : M unit :=
  fun s => (Ret tt, emit (Printed text) s).

(** [input(prompt)]: writes the prompt, then takes the next event from
    standard input. *)
Definition input (prompt : string) : M string :=
  fun s =>
    let s' := emit (Prompted prompt) s in
    match stdin s with
    | [] => (Raise EOFError, s')
    | Line text :: rest => (Ret text, set_stdin rest s')
    | Interrupt :: rest => (Raise KeyboardInterrupt, set_stdin rest s')
    end.

(** [sys.exit(code)] *)
Definition sys_exit {A : Type} (code : Z) : M A := raise (SystemExit code).

(** Reading the list object [tasks]. *)
Definition get_tasks : M (list task) := fun s => (Ret (tasks s), s).

(** [for x in xs: body(x)] *)
Fixpoint for_each {A : Type} (xs : list A) (body : A -> M unit) : M unit :=
  match xs with
  | [] => ret tt
  | x :: rest => body x ;; for_each rest body
  end.

(** ** Operations of the list object *)

(** [tasks.append(t)] *)
Definition append (t : task) : M unit :=
  fun s => (Ret tt, set_tasks (tasks s ++ [t]) s).

(** [list.remove(x)]: drops the first element equal to [x]; [None] when
    there is none (Python raises [ValueError]). *)
Fixpoint list_remove (x : task) (l : list task) : option (list task) :=
  match l with
  | [] => None
  | y :: rest =>
      if task_eqb y x then Some rest
      else match list_remove x rest with
           | Some rest' => Some (y :: rest')
           | None => None
           end
  end.

(** [tasks.remove(t)] *)
Definition remove (t : task) : M unit :=
  fun s =>
    match list_remove t (tasks s) with
    | Some l => (Ret tt, set_tasks l s)
    | None => (Raise ValueError, s)
    end.

(** Item assignment on the dict that [find_task tasks task_id] returned:
    the dict sits in the first slot whose id is [task_id], and that slot
    is rewritten with [f]. *)
Fixpoint assign_found (f : task -> task) (l : list task) (task_id : Z)
  : list task :=
  match l with
  | [] => []
  | t :: rest =>
      if (id t =? task_id)%Z then f t :: rest
      else t :: assign_found f rest task_id
  end.

Definition with_title (v : string) (t : task) : task :=
  mkTask (id t) v (desc t) (complete t).

Definition with_desc (v : string) (t : task) : task :=
  mkTask (id t) (title t) v (complete t).

Definition with_complete (v : bool) (t : task) : task :=
  mkTask (id t) (title t) (desc t) v.

(** [task["title"] = v], [task["desc"] = v], [task["complete"] = v] for
    the task found under [task_id]. *)
Definition set_title (task_id : Z) (v : string) : M unit :=
  fun s => (Ret tt, set_tasks (assign_found (with_title v) (tasks s) task_id) s).

Definition set_desc (task_id : Z) (v : string) : M unit :=
  fun s => (Ret tt, set_tasks (assign_found (with_desc v) (tasks s) task_id) s).

Definition set_complete (task_id : Z) (v : bool) : M unit :=
  fun s =>
    (Ret tt, set_tasks (assign_found (with_complete v) (tasks s) task_id) s).

(** ** Core operations *)

Definition not_found_message (task_id : Z) : string :=
  "Task with ID " ++ PyStr.of_int task_id ++ " not found.".

(** [add_task] *)
Definition add_task : M unit :=
  title <- (l <- input "Title: " ;; ret (PyStr.strip l)) ;;
  desc <- (l <- input "Description: " ;; ret (PyStr.strip l)) ;;
  ts <- get_tasks ;;
  let task_id := get_next_id ts in
  append (mkTask task_id title desc false) ;;
  print ("Task added successfully (ID: " ++ PyStr.of_int task_id ++ ").").

(** [print_tasks] *)
Definition print_tasks : M unit :=
  ts <- get_tasks ;;
  match ts with
  | [] => print "No tasks yet. Add one!"
  | _ =>
      print "Tasks:" ;;
      print "------" ;;
      for_each ts (fun task =>
        let status := if complete task then "[X]" else "[ ]" in
        print (PyStr.of_int (id task) ++ ". " ++ status ++ " " ++ title task
               ++ " - " ++ desc task))
  end.

(** [delete_task] *)
Definition delete_task (task_id : Z) : M bool :=
  ts <- get_tasks ;;
  match find_task ts task_id with
  | Some task => remove task ;; ret true
  | None => print (not_found_message task_id) ;; ret false
  end.

(** [update_task] *)
Definition update_task (task_id : Z) : M bool :=
  ts <- get_tasks ;;
  match find_task ts task_id with
  | None => print (not_found_message task_id) ;; ret false
  | Some task =>
      print ("Current title: " ++ title task) ;;
      print ("Current description: " ++ desc task) ;;
      new_title <- (l <- input "New title (press Enter to keep): " ;;
                    ret (PyStr.strip l)) ;;
      new_desc <- (l <- input "New description (press Enter to keep): " ;;
                   ret (PyStr.strip l)) ;;
      let changed := false in
      changed <- (if PyStr.truthy new_title
                  then set_title task_id new_title ;; ret true
                  else ret changed) ;;
      changed <- (if PyStr.truthy new_desc
                  then set_desc task_id new_desc ;; ret true
                  else ret changed) ;;
      (if changed : bool then print "Task updated." else ret tt) ;;
      ret true
  end.

(** [toggle_complete] *)
Definition toggle_complete (task_id : Z) : M bool :=
  ts <- get_tasks ;;
  match find_task ts task_id with
  | None => print (not_found_message task_id) ;; ret false
  | Some task =>
      let task' := with_complete (negb (complete task)) task in
      set_complete task_id (complete task') ;;
      (if complete task' then print "Task marked as complete."
       else print "Task marked as incomplete.") ;;
      ret true
  end.

(** ** The interactive shell *)

(** [int(text)] for a string: surrounding whitespace is skipped, then an
    optional sign, then decimal digits with single underscores allowed
    between two digits; anything else is a [ValueError], and so is a
    numeral of more than 4300 digits (the interpreter's default limit). *)
Module PyInt.

(** Whitespace as [int] skips it. *)
Definition is_space (c : ascii) : bool :=
  let n := N_of_ascii c in
  ((9 <=? n) && (n <=? 13) || (n =? 32) || (n =? 133) || (n =? 160))%N.

Definition digit (c : ascii) : option Z :=
  let n := N_of_ascii c in
  if ((48 <=? n) && (n <=? 57))%N then Some (Z.of_N n - 48)%Z else None.

Definition is_underscore (c : ascii) : bool := (N_of_ascii c =? 95)%N.

Definition max_str_digits : nat := 4300.

Fixpoint skip_space (s : string) : string :=
  match s with
  | EmptyString => EmptyString
  | String c r => if is_space c then skip_space r else s
  end.

Fixpoint only_space (s : string) : bool :=
  match s with
  | EmptyString => true
  | String c r => is_space c && only_space r
  end.

(** Scans the numeral: [acc] is its value so far, [count] the digits
    read, [prev_us] tells that the last character was an underscore.
    Returns the value, the digit count and the text left. *)
Fixpoint scan (s : string) (acc : Z) (count : nat) (prev_us : bool)
  : option (Z * nat * string) :=
  match s with
  | EmptyString => if prev_us then None else Some (acc, count, s)
  | String c r =>
      match digit c with
      | Some d => scan r (10 * acc + d)%Z (S count) false
      | None =>
          if is_underscore c
          then (if prev_us then None else scan r acc count true)
          else (if prev_us then None else Some (acc, count, s))
      end
  end.

Definition parse_unsigned (s : string) : option Z :=
  match s with
  | EmptyString => None
  | String c _ =>
      if is_underscore c then None
      else match scan s 0%Z O false with
           | Some (v, count, rest) =>
               if (Nat.eqb count 0 || Nat.ltb max_str_digits count)%bool
               then None
               else if only_space rest then Some v else None
           | None => None
           end
  end.

Definition parse (s : string) : option Z :=
  match skip_space s with
  | String "+" r => parse_unsigned r
  | String "-" r => option_map Z.opp (parse_unsigned r)
  | r => parse_unsigned r
  end.

End PyInt.

(** [int(text)] *)
Definition py_int (text : string) : M Z :=
  match PyInt.parse text with
  | Some n => ret n
  | None => raise ValueError
  end.

Definition newline : string := String (ascii_of_nat 10) EmptyString.

(** [display_menu] *)
Definition display_menu : M unit :=
  print (newline ++ "Welcome to my Todo App") ;;
  print "========" ;;
  print "1. Add Task" ;;
  print "2. View Tasks" ;;
  print "3. Update Task" ;;
  print "4. Delete Task" ;;
  print "5. Mark as Complete/Incomplete" ;;
  print "0. Exit".

(** [get_int_input]: the [while True] loop runs at most [fuel] times. *)
Fixpoint get_int_input (fuel : nat) (prompt : string) : M Z :=
  match fuel with
  | O => out_of_fuel
  | S fuel' =>
      try_except (text <- input prompt ;; py_int text)
        (fun e =>
           match e with
           | ValueError =>
               Some (print "Invalid input. Please enter a valid integer." ;;
                     get_int_input fuel' prompt)
           | KeyboardInterrupt =>
               Some (print (newline ++ "Goodbye!") ;; sys_exit 0)
           | _ => None
           end)
  end.

(** [get_menu_choice] *)
Fixpoint get_menu_choice (fuel : nat) : M Z :=
  match fuel with
  | O => out_of_fuel
  | S fuel' =>
      display_menu ;;
      choice <- get_int_input fuel "Choose an option: " ;;
      if ((0 <=? choice) && (choice <=? 5))%Z then ret choice
      else
        print ("Option " ++ PyStr.of_int choice
               ++ " not valid. Please choose 0-5.") ;;
        get_menu_choice fuel'
  end.

(** [confirm]; no caller in the program. *)
Fixpoint confirm (fuel : nat) (prompt : string) : M bool :=
  match fuel with
  | O => out_of_fuel
  | S fuel' =>
      response <- (l <- input prompt ;; ret (PyStr.lower l)) ;;
      if (String.eqb response "y" || String.eqb response "yes")%bool
      then ret true
      else if (String.eqb response "n" || String.eqb response "no")%bool
      then ret false
      else
        print "Invalid input. Please enter 'y' or 'n'." ;;
        confirm fuel' prompt
  end.

(** The [while True] loop of [main]; [break] is the return. *)
Fixpoint main_loop (fuel : nat) : M unit :=
  match fuel with
  | O => out_of_fuel
  | S fuel' =>
      choice <- get_menu_choice fuel ;;
      if (choice =? 0)%Z then ret tt
      else
        (if (choice =? 1)%Z then add_task
         else if (choice =? 2)%Z then print_tasks
         else if (choice =? 3)%Z then
           task_id <- get_int_input fuel "Enter task ID to update: " ;;
           update_task task_id ;; ret tt
         else if (choice =? 4)%Z then
           task_id <- get_int_input fuel "Enter task ID to delete: " ;;
           delete_task task_id ;; ret tt
         else if (choice =? 5)%Z then
           task_id <- get_int_input fuel "Enter task ID to toggle: " ;;
           toggle_complete task_id ;; ret tt
         else ret tt) ;;
        main_loop fuel'
  end.

(** [main]: creates the empty task list and runs the loop. *)
Definition main (fuel : nat) : M unit :=
  (fun s => (Ret tt, set_tasks [] s)) ;;
  main_loop fuel ;;
  print "Goodbye! Have a nice day.".

(** A run of the program on the given standard input.  Every turn of
    every loop takes at least one event from the input, so one more turn
    than there are events is enough. *)
Definition run (events : list in_event) : outcome unit * state :=
  main (S (List.length events)) (mkState [] events []).

(** How the process ends: with success status after [main] returns or
    after [sys.exit(0)]; an exception that nobody catches ends it with a
    traceback and a failure status. *)
Definition ends_with_success (o : outcome unit) : bool :=
  match o with
  | Ret _ => true
  | Raise (SystemExit code) => (code =? 0)%Z
  | _ => false
  end.

(** ** The listing, as the specification words it

    Stated on its own, to be compared with what [print_tasks] writes. *)

Definition task_line (t : task) : string :=
  PyStr.of_int (id t) ++ ". [" ++ (if complete t then "X" else " ") ++ "] "
  ++ title t ++ " - " ++ desc t.

Definition listing (l : list task) : list out_event :=
  match l with
  | [] => [Printed "No tasks yet. Add one!"]
  | _ => Printed "Tasks:" :: Printed "------"
         :: map (fun t => Printed (task_line t)) l
  end.

(** ** What an update does to the task it finds

    [replaces_a_field a b] tells whether the lines [a] and [b] entered at
    the two prompts of [update_task] make it replace a field, and
    [updated a b t] is the task [t] after such an update. *)

Definition replaces_a_field (a b : string) : bool :=
  PyStr.truthy (PyStr.strip a) || PyStr.truthy (PyStr.strip b).

Definition updated (a b : string) (t : task) : task :=
  mkTask (id t)
         (if PyStr.truthy (PyStr.strip a) then PyStr.strip a else title t)
         (if PyStr.truthy (PyStr.strip b) then PyStr.strip b else desc t)
         (complete t).

(** What [update_task] writes before it changes anything: the current
    values and the two prompts. *)
Definition update_prompts (t : task) : list out_event :=
  [Printed ("Current title: " ++ title t);
   Printed ("Current description: " ++ desc t);
   Prompted "New title (press Enter to keep): ";
   Prompted "New description (press Enter to keep): "].

(** The line that [toggle_complete] prints for the state it reached. *)
Definition toggle_message (now_complete : bool) : string :=
  if now_complete then "Task marked as complete."
  else "Task marked as incomplete.".

(** The line that [add_task] prints for the id [n]. *)
Definition added_message (n : Z) : string :=
  "Task added successfully (ID: " ++ PyStr.of_int n ++ ").".

(** What every display of the menu writes, up to the prompt for the
    choice. *)
Definition menu_output : list out_event :=
  [Printed (newline ++ "Welcome to my Todo App"); Printed "========";
   Printed "1. Add Task"; Printed "2. View Tasks"; Printed "3. Update Task";
   Printed "4. Delete Task"; Printed "5. Mark as Complete/Incomplete";
   Printed "0. Exit"; Prompted "Choose an option: "].

(** The farewell of the interrupt handler. *)
Definition goodbye : out_event := Printed (newline ++ "Goodbye!").


Definition consuming (n : nat) {A : Type} (m : M A) : Prop :=
  forall s,
    (List.length (stdin s) < n)%nat ->
    fst (m s) <> OutOfFuel
    /\ (List.length (stdin (snd (m s))) <= List.length (stdin s))%nat
    /\ forall a, fst (m s) = Ret a ->
                 (List.length (stdin (snd (m s))) < List.length (stdin s))%nat.

(** ** Vocabulary of the further properties *)

(** The ids of a list are pairwise distinct and positive. *)
Definition ids_ok (l : list task) : Prop :=
  NoDup (map id l) /\ Forall (fun k => 0 < k) (map id l).

(** [m] keeps the property [P] of the task list, however it ends. *)
Definition keeps (P : list task -> Prop) {A : Type} (m : M A) : Prop :=
  forall s, P (tasks s) -> P (tasks (snd (m s))).


(** The last thing written is [e]. *)
Definition last_written (e : out_event) (s : state) : Prop :=
  exists before, stdout s = (before ++ [e])%list.


(** What [get_int_input] writes for [n] lines that are no integers. *)
Definition invalid_integer : out_event :=
  Printed "Invalid input. Please enter a valid integer.".

Fixpoint retries (prompt : string) (n : nat) : list out_event :=
  match n with
  | O => []
  | S n' => Prompted prompt :: invalid_integer :: retries prompt n'
  end.

(** How [confirm] reads an answer once it is in small letters. *)
Definition confirm_answer (response : string) : option bool :=
  if (String.eqb response "y" || String.eqb response "yes")%bool
  then Some true
  else if (String.eqb response "n" || String.eqb response "no")%bool
  then Some false
  else None.

Definition invalid_answer : out_event :=
  Printed "Invalid input. Please enter 'y' or 'n'.".

Fixpoint answer_retries (prompt : string) (n : nat) : list out_event :=
  match n with
  | O => []
  | S n' => Prompted prompt :: invalid_answer :: answer_retries prompt n'
  end.

(** The number of decimal digits of an integer. *)
Definition decimal_digits (n : Z) : nat :=
  match Z.to_int n with
  | Decimal.Pos d | Decimal.Neg d => Decimal.nb_digits d
  end.

(** The value of the digits [d] read after the value [acc]. *)
Fixpoint uint_value (d : Decimal.uint) (acc : Z) : Z :=
  match d with
  | Decimal.Nil => acc
  | Decimal.D0 r => uint_value r (10 * acc)
  | Decimal.D1 r => uint_value r (10 * acc + 1)
  | Decimal.D2 r => uint_value r (10 * acc + 2)
  | Decimal.D3 r => uint_value r (10 * acc + 3)
  | Decimal.D4 r => uint_value r (10 * acc + 4)
  | Decimal.D5 r => uint_value r (10 * acc + 5)
  | Decimal.D6 r => uint_value r (10 * acc + 6)
  | Decimal.D7 r => uint_value r (10 * acc + 7)
  | Decimal.D8 r => uint_value r (10 * acc + 8)
  | Decimal.D9 r => uint_value r (10 * acc + 9)
  end.

(** What [get_menu_choice] writes for the choices [ns] that it refuses:
    the menu with its prompt, then the line naming the choice. *)
Definition refusal (n : Z) : out_event :=
  Printed ("Option " ++ PyStr.of_int n ++ " not valid. Please choose 0-5.").

Fixpoint refusals (ns : list Z) : list out_event :=
  match ns with
  | [] => []
  | n :: rest => (menu_output ++ [refusal n] ++ refusals rest)%list
  end.

(** The line [text] is read as the integer [n], which is no menu choice. *)
Definition refused_choice (entry : string * Z) : Prop :=
  PyInt.parse (fst entry) = Some (snd entry)
  /\ (snd entry < 0 \/ 5 < snd entry).

(** * Properties *)

Local Open Scope list_scope.

(** ** The shell's integer parser on sample texts *)

Example parse_examples :
  map PyInt.parse ["42"; " -5 "; "+7"; "1_000"; "007"; "abc"; EmptyString;
                   "1__0"; "_1"; "1_"; "- 5"; "3.5"; "1 2"]
  = [Some 42; Some (-5); Some 7; Some 1000; Some 7; None; None; None;
     None; None; None; None; None]%Z.
Proof. reflexivity. Qed.

(** ** Running a computation step by step *)

Lemma bind_Ret {A B : Type} (m : M A) (k : A -> M B) (s s' : state) (a : A) :
  m s = (Ret a, s') -> bind m k s = k a s'.
Proof. unfold bind. now intros ->. Qed.

Lemma bind_Raise {A B : Type} (m : M A) (k : A -> M B) (s s' : state) (e : exn) :
  m s = (Raise e, s') -> bind m k s = (Raise e, s').
Proof. unfold bind. now intros ->. Qed.

(** Unfolds the state updates and projects out of explicit states. *)
Ltac state_simpl :=
  cbv beta iota delta [emit set_tasks set_stdin];
  cbn [tasks stdin stdout].

(** Runs the first primitive step of a sequence. *)
Ltac run_step := erewrite bind_Ret by reflexivity; state_simpl.

(** ** Identifiers *)

Lemma fold_max_spec (rest : list Z) :
  forall x,
    In (fold_left Z.max rest x) (x :: rest)
    /\ forall y, In y (x :: rest) -> (y <= fold_left Z.max rest x)%Z.
Proof.
  induction rest as [|a rest IH]; intros x; simpl.
  - split; [now left|]. intros y [->|[]]. lia.
  - destruct (IH (Z.max x a)) as [Hin Hle]. split.
    + destruct Hin as [Heq|Hin]; [|now right; right].
      rewrite <- Heq.
      destruct (Z.max_spec x a) as [[_ ->]|[_ ->]]; [right|]; now left.
    + intros y Hy.
      assert (Hm : (Z.max x a <= fold_left Z.max rest (Z.max x a))%Z)
        by (apply Hle; now left).
      destruct Hy as [->|[->|Hy]]; [lia|lia|].
      apply Hle. now right.
Qed.

Lemma in_map_id (l : list task) (t : task) : In t l -> In (id t) (map id l).
Proof. apply in_map. Qed.

Lemma get_next_id_nonempty (t : task) (rest : list task) :
  is_max_id (get_next_id (t :: rest) - 1) (t :: rest).
Proof.
  unfold get_next_id, is_max_id. simpl.
  replace (fold_left Z.max (map id rest) (id t) + 1 - 1)%Z
    with (fold_left Z.max (map id rest) (id t)) by lia.
  destruct (fold_max_spec (map id rest) (id t)) as [Hin Hle].
  split; [exact Hin|].
  intros u Hu. apply Hle. apply (in_map_id (t :: rest)). exact Hu.
Qed.

Lemma is_max_id_unique (m m' : Z) (a b : list task) :
  same_ids a b -> is_max_id m a -> is_max_id m' b -> m = m'.
Proof.
  intros Hs [Hin Hle] [Hin' Hle'].
  apply Hs in Hin. apply Hs in Hin'.
  apply in_map_iff in Hin as [u [Hu Hub]].
  apply in_map_iff in Hin' as [v [Hv Hva]].
  specialize (Hle' u Hub). specialize (Hle v Hva). lia.
Qed.

Lemma same_ids_refl (a : list task) : same_ids a a.
Proof. intros k. reflexivity. Qed.

(** C4: [get_next_id] is 1 on the empty list and one more than the
    greatest id present otherwise; it is the same for any two lists that
    hold the same set of ids, whatever their order, their length, the
    other fields of their tasks or the way they were reached. *)
Theorem get_next_id_formula (l : list task) :
  (l = [] -> get_next_id l = 1%Z)
  /\ (l <> [] -> exists m, is_max_id m l)
  /\ (forall m, is_max_id m l -> get_next_id l = (m + 1)%Z)
  /\ (forall l', same_ids l l' -> get_next_id l' = get_next_id l).
Proof.
  assert (Hmax : forall a m, is_max_id m a -> get_next_id a = (m + 1)%Z).
  { intros [|t rest] m Hm.
    - destruct Hm as [[] _].
    - pose proof (get_next_id_nonempty t rest) as Hn.
      pose proof (is_max_id_unique _ _ _ _ (same_ids_refl _) Hn Hm). lia. }
  repeat split.
  - intros ->. reflexivity.
  - intros Hne. destruct l as [|t rest]; [congruence|].
    eexists. apply get_next_id_nonempty.
  - apply Hmax.
  - intros l' Hs. destruct l as [|t rest], l' as [|t' rest'].
    + reflexivity.
    + destruct (proj2 (Hs (id t'))). now left.
    + destruct (proj1 (Hs (id t))). now left.
    + pose proof (get_next_id_nonempty t rest) as Hn.
      pose proof (get_next_id_nonempty t' rest') as Hn'.
      pose proof (is_max_id_unique _ _ _ _ Hs Hn Hn'). lia.
Qed.

(** A store left by deleting id 2 out of ids 1, 2, 3, and the same ids in
    another order with other texts: the next id is 4 for both. *)
Lemma get_next_id_formula_witness :
  get_next_id [mkTask 1 "a" EmptyString false; mkTask 3 "c" EmptyString true] = (3 + 1)%Z
  /\ get_next_id [mkTask 3 "x" "y" false; mkTask 1 "z" EmptyString false;
                  mkTask 3 "x" "y" false]
     = get_next_id [mkTask 1 "a" EmptyString false; mkTask 3 "c" EmptyString true].
Proof.
  pose proof (get_next_id_formula
                [mkTask 1 "a" EmptyString false; mkTask 3 "c" EmptyString true])
    as [_ [_ [Hmax Hsame]]].
  split.
  - apply Hmax. split; simpl.
    + right. left. reflexivity.
    + intros t [<-|[<-|[]]]; simpl; lia.
  - apply Hsame. intros k. simpl. tauto.
Defined.

(** ** Looking tasks up *)

Lemma find_task_split (l : list task) (k : Z) (t : task) :
  find_task l k = Some t ->
  exists l1 l2, l = l1 ++ t :: l2 /\ id t = k /\ find_task l1 k = None.
Proof.
  induction l as [|u rest IH]; simpl; [discriminate|].
  destruct (Z.eqb_spec (id u) k) as [Heq|Hne].
  - intros [= ->]. exists [], rest. auto.
  - intros Hf. destruct (IH Hf) as (l1 & l2 & -> & Hid & Hnone).
    exists (u :: l1), l2. simpl.
    destruct (Z.eqb_spec (id u) k); [contradiction|]. auto.
Qed.

Lemma find_task_None (l : list task) (k : Z) :
  find_task l k = None <-> ~ In k (map id l).
Proof.
  induction l as [|u rest IH]; simpl; [tauto|].
  destruct (Z.eqb_spec (id u) k) as [Heq|Hne].
  - split; [discriminate|]. intros H. exfalso. apply H. now left.
  - rewrite IH. tauto.
Qed.

Lemma find_task_present (l : list task) (k : Z) :
  In k (map id l) -> exists t, find_task l k = Some t.
Proof.
  intros Hin. destruct (find_task l k) as [t|] eqn:Hf; [now exists t|].
  apply find_task_None in Hf. contradiction.
Qed.

Lemma find_task_middle (l1 l2 : list task) (t : task) (k : Z) :
  id t = k -> find_task l1 k = None -> find_task (l1 ++ t :: l2) k = Some t.
Proof.
  intros <-. induction l1 as [|u rest IH]; simpl.
  - now rewrite Z.eqb_refl.
  - destruct (id u =? id t)%Z; [discriminate|]. exact IH.
Qed.

Lemma task_eqb_refl (t : task) : task_eqb t t = true.
Proof.
  unfold task_eqb.
  now rewrite Z.eqb_refl, !String.eqb_refl, Bool.eqb_reflx.
Qed.

Lemma task_eqb_id (a b : task) : task_eqb a b = true -> id a = id b.
Proof.
  unfold task_eqb. rewrite !andb_true_iff. intros [[[H _] _] _].
  now apply Z.eqb_eq.
Qed.

Lemma list_remove_middle (l1 l2 : list task) (t : task) :
  find_task l1 (id t) = None -> list_remove t (l1 ++ t :: l2) = Some (l1 ++ l2).
Proof.
  induction l1 as [|u rest IH]; simpl.
  - now rewrite task_eqb_refl.
  - destruct (Z.eqb_spec (id u) (id t)) as [Heq|Hne]; [discriminate|].
    intros Hnone. destruct (task_eqb u t) eqn:He.
    + apply task_eqb_id in He. contradiction.
    + now rewrite (IH Hnone).
Qed.

Lemma assign_found_middle (f : task -> task) (l1 l2 : list task) (t : task)
      (k : Z) :
  id t = k -> find_task l1 k = None ->
  assign_found f (l1 ++ t :: l2) k = l1 ++ f t :: l2.
Proof.
  intros <-. induction l1 as [|u rest IH]; simpl.
  - now rewrite Z.eqb_refl.
  - destruct (id u =? id t)%Z; [discriminate|]. intros H. now rewrite IH.
Qed.

Lemma NoDup_ids_middle (l1 l2 : list task) (t : task) :
  NoDup (map id (l1 ++ t :: l2)) -> ~ In (id t) (map id (l1 ++ l2)).
Proof.
  rewrite !map_app. simpl. intros Hnd.
  apply NoDup_remove_2 in Hnd. exact Hnd.
Qed.

(** ** Listing *)

Lemma for_each_print (F : task -> string) (l : list task) :
  forall s,
    for_each l (fun t => print (F t)) s
    = (Ret tt,
       mkState (tasks s) (stdin s)
               (stdout s ++ map (fun t => Printed (F t)) l)).
Proof.
  induction l as [|t rest IH]; intros [ts ins out]; simpl.
  - unfold ret. now rewrite app_nil_r.
  - unfold bind, print. simpl. rewrite IH. simpl.
    now rewrite <- app_assoc.
Qed.

(** C9: [print_tasks] returns with the task list and the pending input as
    they were, and what it writes is determined by the task list alone: the
    single line [No tasks yet. Add one!] for the empty list, otherwise
    [Tasks:], a line of dashes and one line
    [<id>. [X] <title> - <description>] (or [[ ]] when not complete) per
    task, in the order of the list. *)
Theorem print_tasks_listing (s : state) :
  print_tasks s
  = (Ret tt, mkState (tasks s) (stdin s) (stdout s ++ listing (tasks s))).
Proof.
  destruct s as [ts ins out]. unfold print_tasks.
  destruct ts as [|t rest]; [reflexivity|].
  do 3 run_step.
  rewrite (for_each_print
             (fun t => (PyStr.of_int (id t) ++ ". "
                        ++ (if complete t then "[X]" else "[ ]") ++ " "
                        ++ title t ++ " - " ++ desc t)%string)).
  rewrite (map_ext _ (fun u => Printed (task_line u)))
    by (intros u; unfold task_line; destruct (complete u); reflexivity).
  state_simpl. unfold listing.
  now rewrite <- !app_assoc.
Qed.

(** Scenario 1 of the listing: one open task. *)
Example print_tasks_one_task :
  print_tasks (mkState [mkTask 1 "Buy milk" "2%" false] [] [])
  = (Ret tt,
     mkState [mkTask 1 "Buy milk" "2%" false] []
             [Printed "Tasks:"; Printed "------";
              Printed "1. [ ] Buy milk - 2%"]).
Proof. reflexivity. Qed.

(** ** Deleting *)

(** C8: when a task with the id is present, [delete_task] returns [True]
    and takes out of the list the first task with that id and nothing
    else, writing nothing; with distinct ids no task with that id is
    left.  When no task has the id it returns [False], leaves the list as
    it was and prints [Task with ID <id> not found.]. *)
Theorem delete_task_spec (s : state) (k : Z) :
  (In k (map id (tasks s)) ->
   exists l1 t l2,
     tasks s = l1 ++ t :: l2 /\ id t = k /\ ~ In k (map id l1)
     /\ delete_task k s = (Ret true, mkState (l1 ++ l2) (stdin s) (stdout s))
     /\ (NoDup (map id (tasks s)) -> ~ In k (map id (l1 ++ l2))))
  /\ (~ In k (map id (tasks s)) ->
      delete_task k s
      = (Ret false,
         mkState (tasks s) (stdin s)
                 (stdout s
                  ++ [Printed ("Task with ID " ++ PyStr.of_int k
                               ++ " not found.")]))).
Proof.
  destruct s as [ts ins out]. simpl. split.
  - intros Hin. destruct (find_task_present _ _ Hin) as [t Hf].
    destruct (find_task_split _ _ _ Hf) as (l1 & l2 & Hl & Hid & Hnone).
    exists l1, t, l2. subst k. repeat split.
    + exact Hl.
    + now apply find_task_None.
    + unfold delete_task, bind, get_tasks, remove. simpl.
      rewrite Hf. simpl. subst ts.
      now rewrite (list_remove_middle _ _ _ Hnone).
    + subst ts. apply NoDup_ids_middle.
  - intros Hout. apply find_task_None in Hout.
    unfold delete_task, bind, get_tasks. simpl. now rewrite Hout.
Qed.

Lemma delete_task_spec_witness :
  (exists l1 t l2,
     [mkTask 1 "a" EmptyString false; mkTask 2 "b" EmptyString false; mkTask 3 "c" EmptyString false]
     = l1 ++ t :: l2 /\ id t = 2%Z /\ ~ In 2%Z (map id l1)
     /\ delete_task 2
          (mkState [mkTask 1 "a" EmptyString false; mkTask 2 "b" EmptyString false;
                    mkTask 3 "c" EmptyString false] [] [])
        = (Ret true, mkState (l1 ++ l2) [] [])
     /\ (NoDup [1; 2; 3]%Z -> ~ In 2%Z (map id (l1 ++ l2))))
  /\ delete_task 99 (mkState [mkTask 1 "a" EmptyString false] [] [])
     = (Ret false,
        mkState [mkTask 1 "a" EmptyString false] []
                [Printed "Task with ID 99 not found."]).
Proof.
  split.
  - apply (proj1 (delete_task_spec
                    (mkState [mkTask 1 "a" EmptyString false; mkTask 2 "b" EmptyString false;
                              mkTask 3 "c" EmptyString false] [] []) 2)).
    simpl. right. left. reflexivity.
  - apply (proj2 (delete_task_spec (mkState [mkTask 1 "a" EmptyString false] [] []) 99)).
    simpl. intros [H|[]]. discriminate H.
Defined.

(** ** Toggling *)

Lemma toggle_complete_run (l1 l2 : list task) (t : task)
      (ins : list in_event) (out : list out_event) :
  find_task l1 (id t) = None ->
  toggle_complete (id t) (mkState (l1 ++ t :: l2) ins out)
  = (Ret true,
     mkState (l1 ++ with_complete (negb (complete t)) t :: l2) ins
             (out ++ [Printed (toggle_message (negb (complete t)))])).
Proof.
  intros Hnone. unfold toggle_complete. run_step.
  rewrite (find_task_middle l1 l2 t (id t) eq_refl Hnone).
  run_step. rewrite (assign_found_middle _ l1 l2 t (id t) eq_refl Hnone).
  cbn [complete with_complete].
  destruct (negb (complete t)); run_step; reflexivity.
Qed.

(** C6: for an id present in the list, [toggle_complete] returns [True],
    flips the [complete] flag of the task found and prints the message of
    the state it reached; a second call on the same id flips the flag
    back, and the task list is again the one before the first call. *)
Theorem toggle_complete_twice (s : state) (k : Z) :
  In k (map id (tasks s)) ->
  exists t s1 s2,
    find_task (tasks s) k = Some t
    /\ toggle_complete k s = (Ret true, s1)
    /\ find_task (tasks s1) k = Some (with_complete (negb (complete t)) t)
    /\ stdout s1 = stdout s ++ [Printed (toggle_message (negb (complete t)))]
    /\ toggle_complete k s1 = (Ret true, s2)
    /\ find_task (tasks s2) k = Some t
    /\ tasks s2 = tasks s.
Proof.
  destruct s as [ts ins out]. cbn [tasks stdout]. intros Hin.
  destruct (find_task_present _ _ Hin) as [t Hf].
  destruct (find_task_split _ _ _ Hf) as (l1 & l2 & -> & <- & Hnone).
  set (t' := with_complete (negb (complete t)) t).
  assert (Hback : with_complete (negb (complete t')) t' = t)
    by (destruct t as [i ti de c]; unfold t', with_complete; simpl;
        now rewrite negb_involutive).
  eexists t, _, _. split; [exact Hf|]. split.
  { apply toggle_complete_run. exact Hnone. }
  cbn [tasks stdout]. split.
  { apply (find_task_middle l1 l2 t' (id t) eq_refl Hnone). }
  split; [reflexivity|]. split.
  { apply (toggle_complete_run l1 l2 t'). exact Hnone. }
  cbn [tasks]. rewrite Hback. split; [exact Hf|reflexivity].
Qed.

(** Scenario 3: an open task with id 1 is completed, then reopened. *)
Lemma toggle_complete_twice_witness :
  exists t s1 s2,
    find_task [mkTask 1 "A" "B" false] 1 = Some t
    /\ toggle_complete 1 (mkState [mkTask 1 "A" "B" false] [] [])
       = (Ret true, s1)
    /\ find_task (tasks s1) 1 = Some (with_complete (negb (complete t)) t)
    /\ stdout s1 = [] ++ [Printed (toggle_message (negb (complete t)))]
    /\ toggle_complete 1 s1 = (Ret true, s2)
    /\ find_task (tasks s2) 1 = Some t
    /\ tasks s2 = [mkTask 1 "A" "B" false].
Proof.
  apply (toggle_complete_twice (mkState [mkTask 1 "A" "B" false] [] []) 1).
  simpl. left. reflexivity.
Defined.

Example toggle_complete_scenario :
  toggle_complete 1 (mkState [mkTask 1 "A" "B" false] [] [])
  = (Ret true,
     mkState [mkTask 1 "A" "B" true] [] [Printed "Task marked as complete."]).
Proof. reflexivity. Qed.

(** ** Stripping *)

Lemma lstrip_no_leading_space (s : string) :
  PyStr.starts_with_space (PyStr.lstrip s) = false.
Proof.
  induction s as [|c r IH]; simpl; [reflexivity|].
  destruct (PyStr.isspace c) eqn:Hc; [exact IH|]. simpl. exact Hc.
Qed.

Lemma rstrip_no_trailing_space (s : string) :
  PyStr.ends_with_space (PyStr.rstrip s) = false.
Proof.
  induction s as [|c r IH]; simpl; [reflexivity|].
  destruct (PyStr.rstrip r) as [|c' r'] eqn:Hr.
  - destruct (PyStr.isspace c) eqn:Hc; simpl; [reflexivity|exact Hc].
  - exact IH.
Qed.

Lemma rstrip_keeps_head (s : string) :
  PyStr.starts_with_space s = false ->
  PyStr.starts_with_space (PyStr.rstrip s) = false.
Proof.
  destruct s as [|c r]; simpl; [reflexivity|]. intros Hc.
  destruct (PyStr.rstrip r); [rewrite Hc|]; simpl; exact Hc.
Qed.

Lemma rstrip_keeps_truthy (s : string) :
  PyStr.starts_with_space s = false ->
  PyStr.truthy (PyStr.rstrip s) = PyStr.truthy s.
Proof.
  destruct s as [|c r]; simpl; [reflexivity|]. intros Hc.
  destruct (PyStr.rstrip r); [rewrite Hc|]; reflexivity.
Qed.

Lemma lstrip_truthy (s : string) :
  PyStr.truthy (PyStr.lstrip s) = negb (PyStr.all_space s).
Proof.
  induction s as [|c r IH]; simpl; [reflexivity|].
  destruct (PyStr.isspace c); [exact IH|reflexivity].
Qed.

Lemma strip_truthy (s : string) :
  PyStr.truthy (PyStr.strip s) = negb (PyStr.all_space s).
Proof.
  unfold PyStr.strip.
  rewrite rstrip_keeps_truthy by apply lstrip_no_leading_space.
  apply lstrip_truthy.
Qed.

Lemma strip_all_space (s : string) :
  PyStr.all_space s = true -> PyStr.strip s = EmptyString.
Proof.
  intros Hs. pose proof (strip_truthy s) as Ht. rewrite Hs in Ht.
  destruct (PyStr.strip s); [reflexivity|discriminate].
Qed.

Lemma strip_trimmed (s : string) :
  PyStr.starts_with_space (PyStr.strip s) = false
  /\ PyStr.ends_with_space (PyStr.strip s) = false.
Proof.
  unfold PyStr.strip. split.
  - apply rstrip_keeps_head, lstrip_no_leading_space.
  - apply rstrip_no_trailing_space.
Qed.

Example strip_examples :
  map PyStr.strip ["  Buy groceries  "; EmptyString; "   "; "a  b"]
  = ["Buy groceries"; EmptyString; EmptyString; "a  b"]%string.
Proof. reflexivity. Qed.

(** ** Updating *)

Lemma update_task_run (l1 l2 : list task) (t : task) (a b : string)
      (rest : list in_event) (out : list out_event) :
  find_task l1 (id t) = None ->
  update_task (id t) (mkState (l1 ++ t :: l2) (Line a :: Line b :: rest) out)
  = (Ret true,
     mkState (l1 ++ updated a b t :: l2) rest
             (out ++ update_prompts t
              ++ (if replaces_a_field a b then [Printed "Task updated."]
                  else []))).
Proof.
  intros Hnone. unfold update_task. run_step.
  rewrite (find_task_middle l1 l2 t (id t) eq_refl Hnone).
  do 4 run_step.
  unfold updated, replaces_a_field, update_prompts.
  destruct (PyStr.truthy (PyStr.strip a)) eqn:Ha;
    destruct (PyStr.truthy (PyStr.strip b)) eqn:Hb;
    repeat run_step;
    rewrite ?(assign_found_middle _ l1 l2 t (id t) eq_refl Hnone);
    rewrite ?(assign_found_middle _ l1 l2 (with_title (PyStr.strip a) t)
                (id t) eq_refl Hnone);
    unfold ret; cbn [with_title with_desc id title desc complete orb];
    rewrite <- ?app_assoc; cbn [app]; try reflexivity.
  destruct t; reflexivity.
Qed.

(** C7: for an id present in the list, [update_task] rewrites the task it
    finds in place: its id and its [complete] flag stay, its title is
    replaced only by a title entered non-empty (after stripping) and its
    description only by a description entered non-empty, each whatever
    was entered for the other; every other task and the order stay.  With
    only a new title the description is unchanged, with only a new
    description the title is unchanged, and with neither the task and the
    whole list are unchanged. *)
Theorem update_task_frame (s : state) (k : Z) (a b : string)
        (rest : list in_event) :
  In k (map id (tasks s)) ->
  stdin s = Line a :: Line b :: rest ->
  exists l1 t l2 t' s',
    tasks s = l1 ++ t :: l2 /\ id t = k /\ ~ In k (map id l1)
    /\ update_task k s = (Ret true, s')
    /\ tasks s' = l1 ++ t' :: l2
    /\ id t' = id t /\ complete t' = complete t
    /\ title t' = (if PyStr.truthy (PyStr.strip a) then PyStr.strip a
                   else title t)
    /\ desc t' = (if PyStr.truthy (PyStr.strip b) then PyStr.strip b
                  else desc t)
    /\ (PyStr.strip b = EmptyString -> desc t' = desc t)
    /\ (PyStr.strip a = EmptyString -> title t' = title t)
    /\ (PyStr.strip a = EmptyString -> PyStr.strip b = EmptyString ->
        t' = t /\ tasks s' = tasks s).
Proof.
  destruct s as [ts ins out]. cbn [tasks stdin]. intros Hin ->.
  destruct (find_task_present _ _ Hin) as [t Hf].
  destruct (find_task_split _ _ _ Hf) as (l1 & l2 & -> & <- & Hnone).
  exists l1, t, l2, (updated a b t). eexists.
  split; [reflexivity|]. split; [reflexivity|].
  split; [now apply find_task_None|].
  split; [apply update_task_run; exact Hnone|].
  cbn [tasks]. unfold updated. cbn [id title desc complete].
  assert (Hsame : PyStr.strip a = EmptyString -> PyStr.strip b = EmptyString ->
                  mkTask (id t)
                    (if PyStr.truthy (PyStr.strip a) then PyStr.strip a
                     else title t)
                    (if PyStr.truthy (PyStr.strip b) then PyStr.strip b
                     else desc t)
                    (complete t) = t)
    by (intros -> ->; destruct t; reflexivity).
  do 5 (split; [reflexivity|]).
  split; [now intros ->|]. split; [now intros ->|].
  intros Ha Hb. rewrite (Hsame Ha Hb). now split.
Qed.

(** Scenario 4: only a description is entered for the task [A]/[B]. *)
Lemma update_task_frame_witness :
  exists l1 t l2 t' s',
    [mkTask 1 "A" "B" false] = l1 ++ t :: l2 /\ id t = 1%Z
    /\ ~ In 1%Z (map id l1)
    /\ update_task 1 (mkState [mkTask 1 "A" "B" false]
                              [Line EmptyString; Line "X"] [])
       = (Ret true, s')
    /\ tasks s' = l1 ++ t' :: l2
    /\ id t' = id t /\ complete t' = complete t
    /\ title t' = (if PyStr.truthy (PyStr.strip EmptyString) then PyStr.strip EmptyString
                   else title t)
    /\ desc t' = (if PyStr.truthy (PyStr.strip "X") then PyStr.strip "X"
                  else desc t)
    /\ (PyStr.strip "X" = EmptyString -> desc t' = desc t)
    /\ (PyStr.strip EmptyString = EmptyString -> title t' = title t)
    /\ (PyStr.strip EmptyString = EmptyString -> PyStr.strip "X" = EmptyString ->
        t' = t /\ tasks s' = [mkTask 1 "A" "B" false]).
Proof.
  apply (update_task_frame
           (mkState [mkTask 1 "A" "B" false] [Line EmptyString; Line "X"] [])
           1 EmptyString "X" []).
  - simpl. left. reflexivity.
  - reflexivity.
Defined.

Example update_task_scenario :
  update_task 1 (mkState [mkTask 1 "A" "B" false] [Line EmptyString; Line "X"] [])
  = (Ret true,
     mkState [mkTask 1 "A" "X" false] []
             [Printed "Current title: A"; Printed "Current description: B";
              Prompted "New title (press Enter to keep): ";
              Prompted "New description (press Enter to keep): ";
              Printed "Task updated."]).
Proof. reflexivity. Qed.

(** C10: [update_task] strips the two lines it reads before it tests
    them.  A line made of whitespace only gives the very result the empty
    line gives; a title or a description that [update_task] stores is the
    stripped line, which neither starts nor ends with whitespace; a field
    whose line is blank keeps its value, and [Task updated.] is printed
    only when some line is not blank. *)
Theorem update_task_strips_input (s : state) (k : Z) (a b : string)
        (rest : list in_event) :
  In k (map id (tasks s)) ->
  stdin s = Line a :: Line b :: rest ->
  (PyStr.all_space a = true ->
   update_task k s
   = update_task k (set_stdin (Line EmptyString :: Line b :: rest) s))
  /\ (PyStr.all_space b = true ->
      update_task k s
      = update_task k (set_stdin (Line a :: Line EmptyString :: rest) s))
  /\ exists t t' s',
      find_task (tasks s) k = Some t
      /\ update_task k s = (Ret true, s')
      /\ find_task (tasks s') k = Some t'
      /\ (if PyStr.all_space a then title t' = title t
          else title t' = PyStr.strip a
               /\ PyStr.starts_with_space (title t') = false
               /\ PyStr.ends_with_space (title t') = false)
      /\ (if PyStr.all_space b then desc t' = desc t
          else desc t' = PyStr.strip b
               /\ PyStr.starts_with_space (desc t') = false
               /\ PyStr.ends_with_space (desc t') = false)
      /\ stdout s'
         = stdout s ++ update_prompts t
           ++ (if PyStr.all_space a && PyStr.all_space b then []
               else [Printed "Task updated."]).
Proof.
  destruct s as [ts ins out]. cbn [tasks stdin stdout]. intros Hin ->.
  destruct (find_task_present _ _ Hin) as [t Hf].
  destruct (find_task_split _ _ _ Hf) as (l1 & l2 & -> & <- & Hnone).
  assert (Hblank : forall x y x' y',
             PyStr.strip x = PyStr.strip x' -> PyStr.strip y = PyStr.strip y' ->
             update_task (id t)
               (mkState (l1 ++ t :: l2) (Line x :: Line y :: rest) out)
             = update_task (id t)
                 (mkState (l1 ++ t :: l2) (Line x' :: Line y' :: rest) out)).
  { intros x y x' y' Hx Hy.
    rewrite !(update_task_run l1 l2 t _ _ rest out Hnone).
    unfold updated, replaces_a_field. now rewrite Hx, Hy. }
  split; [|split].
  - intros Ha. unfold set_stdin. cbn [tasks stdout].
    apply Hblank; [|reflexivity]. now rewrite (strip_all_space a Ha).
  - intros Hb. unfold set_stdin. cbn [tasks stdout].
    apply Hblank; [reflexivity|]. now rewrite (strip_all_space b Hb).
  - exists t, (updated a b t). eexists.
    split; [exact Hf|].
    split; [apply update_task_run; exact Hnone|].
    cbn [tasks stdout].
    split; [apply (find_task_middle l1 l2 (updated a b t) (id t) eq_refl Hnone)|].
    unfold updated, replaces_a_field. cbn [title desc].
    rewrite !strip_truthy.
    destruct (strip_trimmed a) as [Ha1 Ha2].
    destruct (strip_trimmed b) as [Hb1 Hb2].
    destruct (PyStr.all_space a), (PyStr.all_space b); cbn [negb orb andb];
      repeat split; assumption.
Qed.

(** A tab and two blanks for the title, a padded description. *)
Lemma update_task_strips_input_witness :
  update_task 1 (mkState [mkTask 1 "A" "B" false]
                         [Line "   "; Line "  X "] [])
  = update_task 1
      (set_stdin [Line EmptyString; Line "  X "]
         (mkState [mkTask 1 "A" "B" false] [Line "   "; Line "  X "] [])).
Proof.
  apply (update_task_strips_input
           (mkState [mkTask 1 "A" "B" false] [Line "   "; Line "  X "] [])
           1 "   " "  X " []).
  - simpl. left. reflexivity.
  - reflexivity.
  - reflexivity.
Defined.

Example update_task_blank_title :
  update_task 1 (mkState [mkTask 1 "A" "B" false]
                         [Line "   "; Line "  X "] [])
  = (Ret true,
     mkState [mkTask 1 "A" "X" false] []
             [Printed "Current title: A"; Printed "Current description: B";
              Prompted "New title (press Enter to keep): ";
              Prompted "New description (press Enter to keep): ";
              Printed "Task updated."]).
Proof. reflexivity. Qed.

(** C2, as the code has it: [update_task] returns [False] when no task
    has the id and [True] when one has, whether or not a field is
    replaced.  That a field was replaced is told by the line
    [Task updated.], printed after the prompts exactly when one of the two
    lines entered is non-empty once stripped; when both are empty the
    task list is left as it was. *)
Theorem update_task_found_and_changed (s : state) (k : Z) :
  (~ In k (map id (tasks s)) ->
   update_task k s
   = (Ret false,
      mkState (tasks s) (stdin s)
              (stdout s ++ [Printed (not_found_message k)])))
  /\ (In k (map id (tasks s)) ->
      forall a b rest,
        stdin s = Line a :: Line b :: rest ->
        exists t s',
          find_task (tasks s) k = Some t
          /\ update_task k s = (Ret true, s')
          /\ stdout s'
             = stdout s ++ update_prompts t
               ++ (if replaces_a_field a b then [Printed "Task updated."]
                   else [])
          /\ (replaces_a_field a b = false -> tasks s' = tasks s)
          /\ (replaces_a_field a b = true ->
              find_task (tasks s') k = Some (updated a b t))).
Proof.
  destruct s as [ts ins out]. cbn [tasks stdin stdout]. split.
  - intros Hout. apply find_task_None in Hout.
    unfold update_task. run_step. now rewrite Hout.
  - intros Hin a b rest ->.
    destruct (find_task_present _ _ Hin) as [t Hf].
    destruct (find_task_split _ _ _ Hf) as (l1 & l2 & -> & <- & Hnone).
    exists t. eexists. split; [exact Hf|].
    split; [apply update_task_run; exact Hnone|].
    cbn [tasks stdout]. split; [reflexivity|]. split.
    + unfold replaces_a_field, updated. intros Hno.
      apply orb_false_elim in Hno as [-> ->]. destruct t; reflexivity.
    + intros _.
      apply (find_task_middle l1 l2 (updated a b t) (id t) eq_refl Hnone).
Qed.

Lemma update_task_found_and_changed_witness :
  update_task 99 (mkState [mkTask 1 "A" "B" false] [] [])
  = (Ret false,
     mkState [mkTask 1 "A" "B" false] []
             ([] ++ [Printed (not_found_message 99)]))
  /\ exists t s',
      find_task [mkTask 1 "A" "B" false] 1 = Some t
      /\ update_task 1 (mkState [mkTask 1 "A" "B" false]
                                [Line EmptyString; Line EmptyString] [])
         = (Ret true, s')
      /\ stdout s'
         = [] ++ update_prompts t
           ++ (if replaces_a_field EmptyString EmptyString then [Printed "Task updated."]
               else [])
      /\ (replaces_a_field EmptyString EmptyString = false -> tasks s' = [mkTask 1 "A" "B" false])
      /\ (replaces_a_field EmptyString EmptyString = true ->
          find_task (tasks s') 1 = Some (updated EmptyString EmptyString t)).
Proof.
  split.
  - apply (proj1 (update_task_found_and_changed
                    (mkState [mkTask 1 "A" "B" false] [] []) 99)).
    simpl. intros [H|[]]. discriminate H.
  - refine (proj2 (update_task_found_and_changed
                     (mkState [mkTask 1 "A" "B" false] [Line EmptyString; Line EmptyString] [])
                     1) _ EmptyString EmptyString [] _).
    + simpl. left. reflexivity.
    + reflexivity.
Defined.

(** C2, as the specification words it, fails: no reading of the value
    that [update_task] returns tells whether a field was replaced, since
    it returns [True] both for an update with no new value and for one
    with a new title. *)
Lemma update_task_return_hides_change :
  ~ exists decode : bool -> bool,
      forall s k a b rest r s',
        In k (map id (tasks s)) ->
        stdin s = Line a :: Line b :: rest ->
        update_task k s = (Ret r, s') ->
        decode r = replaces_a_field a b.
Proof.
  intros [decode H].
  pose proof (H (mkState [mkTask 1 "A" "B" false] [Line EmptyString; Line EmptyString] [])
                1%Z EmptyString EmptyString [] true _ (or_introl eq_refl) eq_refl eq_refl)
    as Hkeep.
  pose proof (H (mkState [mkTask 1 "A" "B" false] [Line "T"; Line EmptyString] [])
                1%Z "T" EmptyString [] true _ (or_introl eq_refl) eq_refl eq_refl)
    as Hnew.
  rewrite Hkeep in Hnew. discriminate Hnew.
Qed.

(** ** Adding *)

Lemma add_task_run (ts : list task) (a b : string) (rest : list in_event)
      (out : list out_event) :
  add_task (mkState ts (Line a :: Line b :: rest) out)
  = (Ret tt,
     mkState (ts ++ [mkTask (get_next_id ts) (PyStr.strip a) (PyStr.strip b)
                            false])
             rest
             (out ++ [Prompted "Title: "; Prompted "Description: ";
                      Printed (added_message (get_next_id ts))])).
Proof.
  unfold add_task. do 4 run_step. unfold print, added_message. state_simpl.
  now rewrite <- !app_assoc.
Qed.

(** C5, as the code has it: [add_task] reads the title and the
    description, builds a task with [complete = False] and the id that
    [get_next_id] gives for the list before the call, appends it after the
    tasks already there, which stay as they were and in their order, and
    tells the id in the line [Task added successfully (ID: <id>).]; it
    returns nothing.  On the empty list the result is a single task with
    id 1, not complete. *)
Theorem add_task_appends (s : state) (a b : string) (rest : list in_event) :
  stdin s = Line a :: Line b :: rest ->
  add_task s
  = (Ret tt,
     mkState (tasks s
              ++ [mkTask (get_next_id (tasks s)) (PyStr.strip a)
                         (PyStr.strip b) false])
             rest
             (stdout s
              ++ [Prompted "Title: "; Prompted "Description: ";
                  Printed ("Task added successfully (ID: "
                           ++ PyStr.of_int (get_next_id (tasks s)) ++ ").")]))
  /\ (tasks s = [] ->
      exists s',
        add_task s = (Ret tt, s')
        /\ tasks s' = [mkTask 1 (PyStr.strip a) (PyStr.strip b) false]).
Proof.
  destruct s as [ts ins out]. cbn [tasks stdin stdout]. intros ->. split.
  - apply add_task_run.
  - intros ->. eexists. split; [apply add_task_run|reflexivity].
Qed.

(** Scenario 1: the first task of a run. *)
Lemma add_task_appends_witness :
  add_task (mkState [] [Line "Buy milk"; Line "2%"] [])
  = (Ret tt,
     mkState ([] ++ [mkTask (get_next_id []) (PyStr.strip "Buy milk")
                            (PyStr.strip "2%") false])
             []
             ([] ++ [Prompted "Title: "; Prompted "Description: ";
                     Printed ("Task added successfully (ID: "
                              ++ PyStr.of_int (get_next_id []) ++ ").")])).
Proof.
  apply (proj1 (add_task_appends
                  (mkState [] [Line "Buy milk"; Line "2%"] [])
                  "Buy milk" "2%" [] eq_refl)).
Defined.

Example add_task_scenario :
  add_task (mkState [] [Line "Buy milk"; Line "2%"] [])
  = (Ret tt,
     mkState [mkTask 1 "Buy milk" "2%" false] []
             [Prompted "Title: "; Prompted "Description: ";
              Printed "Task added successfully (ID: 1)."]).
Proof. reflexivity. Qed.

(** C5, as the specification words it, fails: the value that [add_task]
    returns does not tell the id it assigned; it is the same for the
    empty list, where the id is 1, and for a list holding id 1, where the
    id is 2. *)
Lemma add_task_return_is_not_the_id :
  ~ exists decode : unit -> Z,
      forall s a b rest r s',
        stdin s = Line a :: Line b :: rest ->
        add_task s = (Ret r, s') ->
        decode r = get_next_id (tasks s).
Proof.
  intros [decode H].
  pose proof (H (mkState [] [Line "A"; Line "B"] [])
                "A" "B" [] tt _ eq_refl eq_refl) as H1.
  pose proof (H (mkState [mkTask 1 "A" "B" false] [Line "C"; Line "D"] [])
                "C" "D" [] tt _ eq_refl eq_refl) as H2.
  rewrite H1 in H2. discriminate H2.
Qed.

(** ** Ids over a run of additions and deletions *)

(** The id that [add_task] assigns is above every id in the list, so the
    ids in the list stay distinct. *)
Lemma get_next_id_above (l : list task) (t : task) :
  In t l -> (id t < get_next_id l)%Z.
Proof.
  destruct l as [|u rest]; [intros []|]. intros Hin.
  destruct (get_next_id_nonempty u rest) as [_ Hle].
  specialize (Hle t Hin). lia.
Qed.

Lemma get_next_id_fresh (l : list task) : ~ In (get_next_id l) (map id l).
Proof.
  intros Hin. apply in_map_iff in Hin as [t [Heq Hin]].
  apply get_next_id_above in Hin. lia.
Qed.

Lemma add_task_keeps_ids_distinct (ts : list task) (a b : string)
      (rest : list in_event) (out : list out_event) :
  NoDup (map id ts) ->
  exists s',
    add_task (mkState ts (Line a :: Line b :: rest) out) = (Ret tt, s')
    /\ NoDup (map id (tasks s')).
Proof.
  intros Hnd. eexists. split; [apply add_task_run|].
  cbn [tasks]. rewrite map_app. cbn [map id].
  apply NoDup_app; [exact Hnd|repeat constructor; intros []|].
  intros k Hk [<-|[]]. now apply (get_next_id_fresh ts).
Qed.

Lemma delete_task_keeps_ids_distinct (s s' : state) (k : Z) (r : bool) :
  NoDup (map id (tasks s)) ->
  delete_task k s = (Ret r, s') ->
  NoDup (map id (tasks s')).
Proof.
  destruct s as [ts ins out]. cbn [tasks]. intros Hnd.
  unfold delete_task. run_step.
  destruct (find_task ts k) as [t|] eqn:Hf.
  - destruct (find_task_split _ _ _ Hf) as (l1 & l2 & -> & <- & Hnone).
    unfold remove. erewrite bind_Ret.
    2:{ cbn [tasks]. rewrite (list_remove_middle l1 l2 t Hnone). reflexivity. }
    state_simpl. intros [= _ <-]. cbn [tasks].
    rewrite map_app in *. cbn [map] in Hnd.
    apply NoDup_remove_1 in Hnd. exact Hnd.
  - run_step. intros [= _ <-]. exact Hnd.
Qed.

(** Deleting the task that was added last frees its id for the next
    addition: on every list, adding, deleting the id just assigned and
    adding again assigns that id a second time. *)
Lemma add_delete_add_assigns_again (ts : list task) (a b c d : string)
      (rest : list in_event) (out : list out_event) :
  bind add_task (fun _ =>
    bind (delete_task (get_next_id ts)) (fun _ => add_task))
    (mkState ts (Line a :: Line b :: Line c :: Line d :: rest) out)
  = (Ret tt,
     mkState (ts ++ [mkTask (get_next_id ts) (PyStr.strip c) (PyStr.strip d)
                            false])
             rest
             (out ++ [Prompted "Title: "; Prompted "Description: ";
                      Printed (added_message (get_next_id ts));
                      Prompted "Title: "; Prompted "Description: ";
                      Printed (added_message (get_next_id ts))])).
Proof.
  erewrite bind_Ret by apply add_task_run.
  assert (Hnone : find_task ts (get_next_id ts) = None)
    by (apply find_task_None, get_next_id_fresh).
  set (new := mkTask (get_next_id ts) (PyStr.strip a) (PyStr.strip b) false).
  assert (Hdel : delete_task (get_next_id ts)
                   (mkState (ts ++ [new]) (Line c :: Line d :: rest)
                            (out ++ [Prompted "Title: ";
                                     Prompted "Description: ";
                                     Printed (added_message (get_next_id ts))]))
                 = (Ret true,
                    mkState ts (Line c :: Line d :: rest)
                            (out ++ [Prompted "Title: ";
                                     Prompted "Description: ";
                                     Printed (added_message (get_next_id ts))]))).
  { unfold delete_task. run_step.
    rewrite (find_task_middle ts [] new (get_next_id ts) eq_refl Hnone).
    unfold remove. erewrite bind_Ret.
    2:{ cbn [tasks].
        rewrite (list_remove_middle ts [] new Hnone). reflexivity. }
    state_simpl. now rewrite app_nil_r. }
  erewrite bind_Ret by exact Hdel.
  rewrite add_task_run. now rewrite <- app_assoc.
Qed.

(** C1 at its failing run: from the empty list, add, delete id 1, add.
    Both additions are given id 1, and the id that the claim calls
    retired is in the list again.  So it goes on every list when the id
    just assigned is deleted before the next addition. *)
Theorem add_delete_add_reuses_id :
  bind add_task (fun _ => bind (delete_task 1) (fun _ => add_task))
    (mkState [] [Line "A"; Line "B"; Line "C"; Line "D"] [])
  = (Ret tt,
     mkState [mkTask 1 "C" "D" false] []
             [Prompted "Title: "; Prompted "Description: ";
              Printed "Task added successfully (ID: 1).";
              Prompted "Title: "; Prompted "Description: ";
              Printed "Task added successfully (ID: 1)."])
  /\ forall ts a b c d rest out,
      exists s',
        bind add_task (fun _ =>
          bind (delete_task (get_next_id ts)) (fun _ => add_task))
          (mkState ts (Line a :: Line b :: Line c :: Line d :: rest) out)
        = (Ret tt, s')
        /\ find_task (tasks s') (get_next_id ts)
           = Some (mkTask (get_next_id ts) (PyStr.strip c) (PyStr.strip d)
                          false)
        /\ stdout s'
           = out ++ [Prompted "Title: "; Prompted "Description: ";
                     Printed (added_message (get_next_id ts));
                     Prompted "Title: "; Prompted "Description: ";
                     Printed (added_message (get_next_id ts))].
Proof.
  split; [reflexivity|]. intros ts a b c d rest out.
  eexists. split; [apply add_delete_add_assigns_again|].
  cbn [tasks stdout]. split; [|reflexivity].
  apply (find_task_middle ts []
           (mkTask (get_next_id ts) (PyStr.strip c) (PyStr.strip d) false)
           (get_next_id ts) eq_refl).
  apply find_task_None, get_next_id_fresh.
Qed.

(** The same through the menu: choices 1, 4 (id 1), 1 and 0. *)
Example run_reuses_id :
  let r := run [Line "1"; Line "A"; Line "B"; Line "4"; Line "1";
                Line "1"; Line "C"; Line "D"; Line "0"] in
  fst r = Ret tt
  /\ tasks (snd r) = [mkTask 1 "C" "D" false]
  /\ filter (fun e => match e with
                      | Printed text => String.prefix "Task added" text
                      | Prompted _ => false
                      end) (stdout (snd r))
     = [Printed "Task added successfully (ID: 1).";
        Printed "Task added successfully (ID: 1)."].
Proof. vm_compute. repeat split. Qed.

(** ** The integer prompt *)

Lemma get_int_input_line_ok (fuel : nat) (prompt text : string) (n : Z)
      (ts : list task) (rest : list in_event) (out : list out_event) :
  PyInt.parse text = Some n ->
  get_int_input (S fuel) prompt (mkState ts (Line text :: rest) out)
  = (Ret n, mkState ts rest (out ++ [Prompted prompt])).
Proof.
  intros Hp. cbn [get_int_input]. unfold try_except, bind, input, py_int.
  state_simpl. now rewrite Hp.
Qed.

Lemma get_int_input_line_bad (fuel : nat) (prompt text : string)
      (ts : list task) (rest : list in_event) (out : list out_event) :
  PyInt.parse text = None ->
  get_int_input (S fuel) prompt (mkState ts (Line text :: rest) out)
  = get_int_input fuel prompt
      (mkState ts rest
               (out ++ [Prompted prompt;
                        Printed "Invalid input. Please enter a valid integer."])).
Proof.
  intros Hp. cbn [get_int_input]. unfold try_except at 1.
  unfold bind at 1, input at 1, py_int at 1.
  state_simpl. rewrite Hp. unfold raise. cbv beta iota.
  run_step. now rewrite <- app_assoc.
Qed.

Lemma get_int_input_eof (fuel : nat) (prompt : string) (ts : list task)
      (out : list out_event) :
  get_int_input (S fuel) prompt (mkState ts [] out)
  = (Raise EOFError, mkState ts [] (out ++ [Prompted prompt])).
Proof. reflexivity. Qed.

(** The interrupt at an integer prompt: the farewell, then [sys.exit(0)]. *)
Lemma get_int_input_interrupt (fuel : nat) (prompt : string) (ts : list task)
      (rest : list in_event) (out : list out_event) :
  get_int_input (S fuel) prompt (mkState ts (Interrupt :: rest) out)
  = (Raise (SystemExit 0), mkState ts rest (out ++ [Prompted prompt; goodbye])).
Proof.
  cbn [get_int_input]. unfold try_except, bind, input. state_simpl.
  unfold print, sys_exit, raise. state_simpl. now rewrite <- app_assoc.
Qed.

(** The interrupt at the text prompts: nothing catches it. *)
Lemma add_task_interrupt_at_title (ts : list task) (rest : list in_event)
      (out : list out_event) :
  add_task (mkState ts (Interrupt :: rest) out)
  = (Raise KeyboardInterrupt, mkState ts rest (out ++ [Prompted "Title: "])).
Proof. reflexivity. Qed.


Lemma update_task_interrupt_at_title (ts : list task) (k : Z) (t : task)
      (rest : list in_event) (out : list out_event) :
  find_task ts k = Some t ->
  update_task k (mkState ts (Interrupt :: rest) out)
  = (Raise KeyboardInterrupt,
     mkState ts rest
             (out ++ [Printed ("Current title: " ++ title t);
                      Printed ("Current description: " ++ desc t);
                      Prompted "New title (press Enter to keep): "])).
Proof.
  intros Hf. unfold update_task. run_step. rewrite Hf. do 2 run_step.
  erewrite bind_Raise by reflexivity.
  state_simpl. now rewrite <- !app_assoc.
Qed.

Lemma confirm_interrupt (fuel : nat) (prompt : string) (ts : list task)
      (rest : list in_event) (out : list out_event) :
  confirm (S fuel) prompt (mkState ts (Interrupt :: rest) out)
  = (Raise KeyboardInterrupt, mkState ts rest (out ++ [Prompted prompt])).
Proof. reflexivity. Qed.

(** C3 at its failing run: the user chooses 1 and interrupts the
    [Title: ] prompt.  The process ends on the uncaught
    [KeyboardInterrupt]: no farewell is printed and the status is not
    success.  So it goes in every state in which the interrupt meets the
    first prompt of [add_task]. *)
Theorem run_interrupt_at_title :
  run [Line "1"; Interrupt]
  = (Raise KeyboardInterrupt,
     mkState [] [] (menu_output ++ [Prompted "Title: "]))
  /\ ends_with_success (fst (run [Line "1"; Interrupt])) = false
  /\ ~ In goodbye (stdout (snd (run [Line "1"; Interrupt])))
  /\ forall ts rest out,
      add_task (mkState ts (Interrupt :: rest) out)
      = (Raise KeyboardInterrupt,
         mkState ts rest (out ++ [Prompted "Title: "])).
Proof.
  split; [reflexivity|]. split; [reflexivity|]. split.
  - vm_compute. intros H.
    repeat (destruct H as [H|H]; [discriminate H|]). exact H.
  - apply add_task_interrupt_at_title.
Qed.

(** The interrupt at the prompt for a task id is caught. *)
Example run_interrupt_at_task_id :
  run [Line "3"; Interrupt]
  = (Raise (SystemExit 0),
     mkState [] []
             (menu_output ++ [Prompted "Enter task ID to update: "; goodbye]))
  /\ ends_with_success (fst (run [Line "3"; Interrupt])) = true.
Proof. split; reflexivity. Qed.

(** The exit choice. *)
Example run_exit_choice :
  run [Line "0"]
  = (Ret tt,
     mkState [] [] (menu_output ++ [Printed "Goodbye! Have a nice day."])).
Proof. reflexivity. Qed.

(** [confirm] on the answers of the test suite. *)
Example confirm_examples :
  fst (confirm 2 "Continue? (y/n): " (mkState [] [Line "YES"] [])) = Ret true
  /\ fst (confirm 2 "Continue? (y/n): " (mkState [] [Line "n"] []))
     = Ret false
  /\ confirm 3 "Continue? (y/n): " (mkState [] [Line "maybe"; Line "y"] [])
     = (Ret true,
        mkState [] []
                [Prompted "Continue? (y/n): ";
                 Printed "Invalid input. Please enter 'y' or 'n'.";
                 Prompted "Continue? (y/n): "]).
Proof. repeat split. Qed.

(** The end of the input stream at a prompt ends the process too. *)
Example run_end_of_input :
  run [] = (Raise EOFError, mkState [] [] menu_output).
Proof. reflexivity. Qed.

(** ** The loops end

    Every turn of the three loops takes an event from the pending input,
    so the fuel that [run] gives is never used up. *)















Lemma consuming_get_int_input (fuel : nat) (prompt : string) :
  consuming fuel (get_int_input fuel prompt).
Proof.
  induction fuel as [|fuel IH]; intros [ts ins out]; cbn [stdin].
  - intros Hs. inversion Hs.
  - intros Hs. destruct ins as [|[text|] rest].
    + rewrite get_int_input_eof. cbn [fst snd stdin].
      repeat split; [discriminate|lia|discriminate].
    + destruct (PyInt.parse text) as [v|] eqn:Hp.
      * rewrite (get_int_input_line_ok _ _ _ _ _ _ _ Hp).
        cbn [fst snd stdin List.length].
        repeat split; [discriminate|lia|intros; lia].
      * rewrite (get_int_input_line_bad _ _ _ _ _ _ Hp).
        cbn [List.length] in *.
        match goal with
        | |- context [get_int_input fuel prompt ?st] =>
            destruct (IH st) as (Hne & Hle & Hlt); [cbn [stdin]; lia|]
        end.
        cbn [stdin] in Hle, Hlt.
        repeat split; [exact Hne|lia|].
        intros a Ha. specialize (Hlt a Ha). lia.
    + rewrite get_int_input_interrupt. cbn [fst snd stdin List.length].
      repeat split; [discriminate|lia|discriminate].
Qed.









(** * Further properties of the operations *)

(** ** Lookup *)

Lemma find_task_None_forall (l : list task) (k : Z) :
  find_task l k = None -> forall u, In u l -> id u <> k.
Proof.
  intros Hnone u Hu Heq. apply find_task_None in Hnone. apply Hnone.
  rewrite <- Heq. now apply in_map.
Qed.

Lemma find_task_skip (l1 l2 : list task) (t : task) (j : Z) :
  id t <> j -> find_task (l1 ++ t :: l2) j = find_task (l1 ++ l2) j.
Proof.
  intros Hne. induction l1 as [|u rest IH]; simpl.
  - destruct (Z.eqb_spec (id t) j); [contradiction|reflexivity].
  - destruct (id u =? j)%Z; [reflexivity|exact IH].
Qed.

Lemma find_task_replace (l1 l2 : list task) (t t' : task) (j : Z) :
  id t <> j -> id t' = id t ->
  find_task (l1 ++ t' :: l2) j = find_task (l1 ++ t :: l2) j.
Proof.
  intros Hne Hid. rewrite !find_task_skip; [reflexivity|exact Hne|].
  now rewrite Hid.
Qed.

(** X1: [find_task] gives the first task of the list that has the id:
    no task before it has it; it gives [None] only when no task of the
    list has the id. *)
Theorem find_task_first_match (l : list task) (k : Z) :
  match find_task l k with
  | Some t =>
      exists l1 l2,
        l = l1 ++ t :: l2 /\ id t = k /\ forall u, In u l1 -> id u <> k
  | None => forall u, In u l -> id u <> k
  end.
Proof.
  destruct (find_task l k) as [t|] eqn:Hf.
  - destruct (find_task_split _ _ _ Hf) as (l1 & l2 & Hl & Hid & Hnone).
    exists l1, l2. repeat split; [exact Hl|exact Hid|].
    now apply find_task_None_forall.
  - now apply find_task_None_forall.
Qed.

(** Two tasks share id 2: the first one is found. *)
Lemma find_task_first_match_witness :
  exists l1 l2,
    [mkTask 1 "a" "x" false; mkTask 2 "b" "y" false; mkTask 2 "c" "z" true]
    = l1 ++ mkTask 2 "b" "y" false :: l2
    /\ id (mkTask 2 "b" "y" false) = 2%Z
    /\ forall u, In u l1 -> id u <> 2%Z.
Proof.
  exact (find_task_first_match
           [mkTask 1 "a" "x" false; mkTask 2 "b" "y" false;
            mkTask 2 "c" "z" true] 2).
Defined.

(** ** Ids assigned by additions *)

Lemma get_next_id_of_max (l : list task) (m : Z) :
  is_max_id m l -> get_next_id l = (m + 1)%Z.
Proof.
  destruct l as [|t rest]; intros Hm.
  - destruct Hm as [[] _].
  - pose proof (get_next_id_nonempty t rest) as Hn.
    pose proof (is_max_id_unique _ _ _ _ (same_ids_refl _) Hn Hm). lia.
Qed.

Lemma get_next_id_after_add (l : list task) (a b : string) (c : bool) :
  get_next_id (l ++ [mkTask (get_next_id l) a b c]) = (get_next_id l + 1)%Z.
Proof.
  apply get_next_id_of_max. split.
  - rewrite map_app. apply in_or_app. right. now left.
  - intros t Ht. apply in_app_or in Ht as [Ht|[<-|[]]].
    + apply get_next_id_above in Ht. lia.
    + cbn [id]. lia.
Qed.

(** X2: the id that [add_task] gives to the new task is greater than
    every id in the list, the new task is the one found under that id
    afterwards, and a list of pairwise distinct ids stays one. *)
Theorem add_task_assigns_fresh_id (s : state) (a b : string)
        (rest : list in_event) :
  stdin s = Line a :: Line b :: rest ->
  exists s',
    add_task s = (Ret tt, s')
    /\ (forall t, In t (tasks s) -> (id t < get_next_id (tasks s))%Z)
    /\ find_task (tasks s') (get_next_id (tasks s))
       = Some (mkTask (get_next_id (tasks s)) (PyStr.strip a) (PyStr.strip b)
                      false)
    /\ (NoDup (map id (tasks s)) -> NoDup (map id (tasks s'))).
Proof.
  destruct s as [ts ins out]. cbn [tasks stdin]. intros ->.
  eexists. split; [apply add_task_run|]. cbn [tasks].
  split; [intros t; apply get_next_id_above|]. split.
  - apply (find_task_middle ts []
             (mkTask (get_next_id ts) (PyStr.strip a) (PyStr.strip b) false)
             (get_next_id ts) eq_refl).
    apply find_task_None, get_next_id_fresh.
  - intros Hnd. rewrite map_app. cbn [map id].
    apply NoDup_app; [exact Hnd|repeat constructor; intros []|].
    intros k Hk [<-|[]]. now apply (get_next_id_fresh ts).
Qed.

Lemma add_task_assigns_fresh_id_witness :
  exists s',
    add_task (mkState [mkTask 1 "a" "x" false; mkTask 3 "c" "z" false]
                      [Line "d"; Line "w"] [])
    = (Ret tt, s')
    /\ (forall t, In t [mkTask 1 "a" "x" false; mkTask 3 "c" "z" false] ->
                  (id t < get_next_id [mkTask 1 "a" "x" false;
                                       mkTask 3 "c" "z" false])%Z)
    /\ find_task (tasks s')
         (get_next_id [mkTask 1 "a" "x" false; mkTask 3 "c" "z" false])
       = Some (mkTask (get_next_id [mkTask 1 "a" "x" false;
                                    mkTask 3 "c" "z" false])
                      (PyStr.strip "d") (PyStr.strip "w") false)
    /\ (NoDup (map id [mkTask 1 "a" "x" false; mkTask 3 "c" "z" false]) ->
        NoDup (map id (tasks s'))).
Proof.
  exact (add_task_assigns_fresh_id
           (mkState [mkTask 1 "a" "x" false; mkTask 3 "c" "z" false]
                    [Line "d"; Line "w"] [])
           "d" "w" [] eq_refl).
Defined.

(** X3: two additions in a row, with no deletion between them, are given
    consecutive ids. *)
Theorem add_task_twice_consecutive (s : state) (a b c d : string)
        (rest : list in_event) :
  stdin s = Line a :: Line b :: Line c :: Line d :: rest ->
  bind add_task (fun _ => add_task) s
  = (Ret tt,
     mkState (tasks s
              ++ [mkTask (get_next_id (tasks s)) (PyStr.strip a)
                         (PyStr.strip b) false;
                  mkTask (get_next_id (tasks s) + 1) (PyStr.strip c)
                         (PyStr.strip d) false])
             rest
             (stdout s
              ++ [Prompted "Title: "; Prompted "Description: ";
                  Printed (added_message (get_next_id (tasks s)));
                  Prompted "Title: "; Prompted "Description: ";
                  Printed (added_message (get_next_id (tasks s) + 1))])).
Proof.
  destruct s as [ts ins out]. cbn [tasks stdin stdout]. intros ->.
  erewrite bind_Ret by apply add_task_run.
  rewrite add_task_run, get_next_id_after_add.
  now rewrite <- !app_assoc.
Qed.

Lemma add_task_twice_consecutive_witness :
  bind add_task (fun _ => add_task)
    (mkState [mkTask 4 "a" "x" true] [Line "b"; Line "y"; Line "c"; Line "z"]
             [])
  = (Ret tt,
     mkState ([mkTask 4 "a" "x" true]
              ++ [mkTask (get_next_id [mkTask 4 "a" "x" true])
                         (PyStr.strip "b") (PyStr.strip "y") false;
                  mkTask (get_next_id [mkTask 4 "a" "x" true] + 1)
                         (PyStr.strip "c") (PyStr.strip "z") false])
             []
             ([]
              ++ [Prompted "Title: "; Prompted "Description: ";
                  Printed (added_message
                             (get_next_id [mkTask 4 "a" "x" true]));
                  Prompted "Title: "; Prompted "Description: ";
                  Printed (added_message
                             (get_next_id [mkTask 4 "a" "x" true] + 1))])).
Proof.
  exact (add_task_twice_consecutive
           (mkState [mkTask 4 "a" "x" true]
                    [Line "b"; Line "y"; Line "c"; Line "z"] [])
           "b" "y" "c" "z" [] eq_refl).
Defined.

(** ** Deleting: what stays *)

Lemma delete_task_run (l1 l2 : list task) (t : task) (ins : list in_event)
      (out : list out_event) :
  find_task l1 (id t) = None ->
  delete_task (id t) (mkState (l1 ++ t :: l2) ins out)
  = (Ret true, mkState (l1 ++ l2) ins out).
Proof.
  intros Hnone. unfold delete_task. run_step.
  rewrite (find_task_middle l1 l2 t (id t) eq_refl Hnone).
  unfold remove. erewrite bind_Ret.
  2:{ cbn [tasks]. rewrite (list_remove_middle l1 l2 t Hnone). reflexivity. }
  reflexivity.
Qed.

Lemma delete_task_absent (ts : list task) (k : Z) (ins : list in_event)
      (out : list out_event) :
  find_task ts k = None ->
  delete_task k (mkState ts ins out)
  = (Ret false, mkState ts ins (out ++ [Printed (not_found_message k)])).
Proof. intros Hnone. unfold delete_task. run_step. now rewrite Hnone. Qed.

(** X4: when the list holds an id greater than [k], deleting [k] leaves
    [get_next_id] as it was, so the next addition is not given [k]. *)
Theorem delete_task_below_max_keeps_next_id (s : state) (k : Z) (u : task) :
  In k (map id (tasks s)) ->
  In u (tasks s) -> (k < id u)%Z ->
  exists s',
    delete_task k s = (Ret true, s')
    /\ get_next_id (tasks s') = get_next_id (tasks s)
    /\ get_next_id (tasks s') <> k.
Proof.
  destruct s as [ts ins out]. cbn [tasks]. intros Hin Hu Hlt.
  destruct (find_task_present _ _ Hin) as [t Hf].
  destruct (find_task_split _ _ _ Hf) as (l1 & l2 & -> & <- & Hnone).
  eexists. split; [apply delete_task_run; exact Hnone|]. cbn [tasks].
  assert (Hsame : get_next_id (l1 ++ l2) = get_next_id (l1 ++ t :: l2)).
  { destruct (l1 ++ t :: l2) as [|v rest] eqn:Hl; [destruct Hu|].
    destruct (get_next_id_nonempty v rest) as [Hmin Hmle].
    rewrite <- Hl in *.
    replace (get_next_id (l1 ++ t :: l2))
      with (get_next_id (l1 ++ t :: l2) - 1 + 1)%Z by lia.
    apply get_next_id_of_max.
    pose proof (Hmle u Hu) as Hmu.
    split.
    - apply in_map_iff in Hmin as [w [Hw Hwin]].
      apply in_map_iff. exists w. split; [exact Hw|].
      apply in_app_or in Hwin as [Hwin|[<-|Hwin]];
        apply in_or_app; [now left|lia|now right].
    - intros w Hw. apply Hmle.
      apply in_app_or in Hw as [Hw|Hw]; apply in_or_app;
        [now left|right; now right]. }
  split; [exact Hsame|]. rewrite Hsame.
  apply get_next_id_above in Hu. lia.
Qed.

(** Ids 1, 2, 3: after deleting 2 the next id is still 4. *)
Lemma delete_task_below_max_keeps_next_id_witness :
  exists s',
    delete_task 2
      (mkState [mkTask 1 "a" "x" false; mkTask 2 "b" "y" false;
                mkTask 3 "c" "z" false] [] [])
    = (Ret true, s')
    /\ get_next_id (tasks s')
       = get_next_id [mkTask 1 "a" "x" false; mkTask 2 "b" "y" false;
                      mkTask 3 "c" "z" false]
    /\ get_next_id (tasks s') <> 2%Z.
Proof.
  apply (delete_task_below_max_keeps_next_id
           (mkState [mkTask 1 "a" "x" false; mkTask 2 "b" "y" false;
                     mkTask 3 "c" "z" false] [] [])
           2 (mkTask 3 "c" "z" false)).
  - simpl. right. left. reflexivity.
  - simpl. right. right. left. reflexivity.
  - reflexivity.
Defined.

(** X5: [delete_task] always returns: the [ValueError] of [list.remove]
    never comes up.  It reads no input, every task under another id
    is found as before, and the list is one task shorter exactly when
    the result is [True]. *)
Theorem delete_task_frame (s : state) (k : Z) :
  exists r s',
    delete_task k s = (Ret r, s')
    /\ stdin s' = stdin s
    /\ (forall j, j <> k -> find_task (tasks s') j = find_task (tasks s) j)
    /\ (r = true ->
        S (List.length (tasks s')) = List.length (tasks s)
        /\ stdout s' = stdout s)
    /\ (r = false -> tasks s' = tasks s).
Proof.
  destruct s as [ts ins out]. cbn [tasks stdin stdout].
  destruct (find_task ts k) as [t|] eqn:Hf.
  - destruct (find_task_split _ _ _ Hf) as (l1 & l2 & -> & <- & Hnone).
    eexists true, _. split; [apply delete_task_run; exact Hnone|].
    cbn [tasks stdin stdout]. split; [reflexivity|]. split.
    + intros j Hj. symmetry. apply find_task_skip. congruence.
    + split; [|discriminate]. intros _. split; [|reflexivity].
      rewrite !length_app. cbn [List.length]. lia.
  - eexists false, _. split; [apply delete_task_absent; exact Hf|].
    cbn [tasks stdin]. split; [reflexivity|]. split; [reflexivity|].
    split; [discriminate|reflexivity].
Qed.

Lemma delete_task_frame_witness :
  exists r s',
    delete_task 1 (mkState [mkTask 1 "a" "x" false; mkTask 2 "b" "y" true]
                           [Line "kept"] [])
    = (Ret r, s')
    /\ stdin s' = [Line "kept"]
    /\ (forall j, j <> 1%Z ->
                  find_task (tasks s') j
                  = find_task [mkTask 1 "a" "x" false; mkTask 2 "b" "y" true]
                              j)
    /\ (r = true ->
        S (List.length (tasks s')) = 2%nat /\ stdout s' = [])
    /\ (r = false ->
        tasks s' = [mkTask 1 "a" "x" false; mkTask 2 "b" "y" true]).
Proof.
  exact (delete_task_frame
           (mkState [mkTask 1 "a" "x" false; mkTask 2 "b" "y" true]
                    [Line "kept"] []) 1).
Defined.

(** ** Toggling: what stays *)

(** X6: [toggle_complete] on an id that no task has returns [False],
    prints the not-found line and changes nothing; on an id that a task
    has it reads no input, keeps the ids, the titles and the descriptions
    of all tasks, and every task under another id is found as before. *)
Theorem toggle_complete_frame (s : state) (k : Z) :
  (~ In k (map id (tasks s)) ->
   toggle_complete k s
   = (Ret false,
      mkState (tasks s) (stdin s)
              (stdout s ++ [Printed ("Task with ID " ++ PyStr.of_int k
                                     ++ " not found.")])))
  /\ (In k (map id (tasks s)) ->
      exists s',
        toggle_complete k s = (Ret true, s')
        /\ stdin s' = stdin s
        /\ map id (tasks s') = map id (tasks s)
        /\ map title (tasks s') = map title (tasks s)
        /\ map desc (tasks s') = map desc (tasks s)
        /\ forall j, j <> k ->
                     find_task (tasks s') j = find_task (tasks s) j).
Proof.
  destruct s as [ts ins out]. cbn [tasks stdin stdout]. split.
  - intros Hout. apply find_task_None in Hout.
    unfold toggle_complete. run_step. now rewrite Hout.
  - intros Hin. destruct (find_task_present _ _ Hin) as [t Hf].
    destruct (find_task_split _ _ _ Hf) as (l1 & l2 & -> & <- & Hnone).
    eexists. split; [apply toggle_complete_run; exact Hnone|].
    cbn [tasks stdin]. rewrite !map_app. cbn [map with_complete id title desc].
    repeat split.
    intros j Hj. apply find_task_replace; [congruence|reflexivity].
Qed.

Lemma toggle_complete_frame_witness :
  toggle_complete 7 (mkState [mkTask 1 "a" "x" false] [] [])
  = (Ret false,
     mkState [mkTask 1 "a" "x" false] []
             ([] ++ [Printed ("Task with ID " ++ PyStr.of_int 7
                              ++ " not found.")]))
  /\ exists s',
      toggle_complete 1 (mkState [mkTask 1 "a" "x" false] [] [])
      = (Ret true, s')
      /\ stdin s' = []
      /\ map id (tasks s') = map id [mkTask 1 "a" "x" false]
      /\ map title (tasks s') = map title [mkTask 1 "a" "x" false]
      /\ map desc (tasks s') = map desc [mkTask 1 "a" "x" false]
      /\ forall j, j <> 1%Z ->
                   find_task (tasks s') j
                   = find_task [mkTask 1 "a" "x" false] j.
Proof.
  split.
  - apply (proj1 (toggle_complete_frame
                    (mkState [mkTask 1 "a" "x" false] [] []) 7)).
    simpl. intros [H|[]]. discriminate H.
  - apply (proj2 (toggle_complete_frame
                    (mkState [mkTask 1 "a" "x" false] [] []) 1)).
    simpl. left. reflexivity.
Defined.

(** ** Operations cut short *)





(** ** The prompts *)

Lemma get_int_input_retries (prompt : string) (ts : list task)
      (bad : list string) :
  Forall (fun text => PyInt.parse text = None) bad ->
  forall fuel tail out,
    get_int_input (List.length bad + fuel) prompt
      (mkState ts (map Line bad ++ tail) out)
    = get_int_input fuel prompt
        (mkState ts tail (out ++ retries prompt (List.length bad))).
Proof.
  induction 1 as [|text bad Htext _ IH]; intros fuel tail out.
  - cbn [List.length map app retries Nat.add]. now rewrite app_nil_r.
  - cbn [List.length map app Nat.add retries].
    rewrite (get_int_input_line_bad _ _ _ _ _ _ Htext), IH.
    unfold invalid_integer. now rewrite <- app_assoc.
Qed.

(** X9: [get_int_input] asks again for every line that is no integer,
    without limit: after any number of such lines, each answered by the
    error line and a new prompt, the first line that is an integer is
    returned, an interrupt prints the farewell and exits with status 0,
    and the end of the input raises [EOFError]. *)
Theorem get_int_input_after_invalid_lines (prompt : string) (ts : list task)
        (bad : list string) (fuel : nat) (out : list out_event) :
  Forall (fun text => PyInt.parse text = None) bad ->
  (List.length bad < fuel)%nat ->
  (forall text n rest,
      PyInt.parse text = Some n ->
      get_int_input fuel prompt
        (mkState ts (map Line bad ++ Line text :: rest) out)
      = (Ret n,
         mkState ts rest
                 (out ++ retries prompt (List.length bad)
                  ++ [Prompted prompt])))
  /\ (forall rest,
         get_int_input fuel prompt
           (mkState ts (map Line bad ++ Interrupt :: rest) out)
         = (Raise (SystemExit 0),
            mkState ts rest
                    (out ++ retries prompt (List.length bad)
                     ++ [Prompted prompt; goodbye])))
  /\ get_int_input fuel prompt (mkState ts (map Line bad ++ []) out)
     = (Raise EOFError,
        mkState ts []
                (out ++ retries prompt (List.length bad)
                 ++ [Prompted prompt])).
Proof.
  intros Hbad Hfuel.
  destruct (Nat.le_exists_sub (S (List.length bad)) fuel Hfuel)
    as (extra & -> & _).
  replace (extra + S (List.length bad))%nat
    with (List.length bad + S extra)%nat by lia.
  repeat split; intros; rewrite (get_int_input_retries _ _ _ Hbad).
  - rewrite (get_int_input_line_ok _ _ _ _ _ _ _ H).
    now rewrite <- app_assoc.
  - rewrite get_int_input_interrupt. now rewrite <- app_assoc.
  - rewrite get_int_input_eof. now rewrite <- app_assoc.
Qed.

(** Two lines that are no integers, then 42. *)
Lemma get_int_input_after_invalid_lines_witness :
  get_int_input 3 "Enter number: "
    (mkState [] (map Line ["abc"; "4.5"] ++ Line " 42 " :: []) [])
  = (Ret 42,
     mkState [] []
             ([] ++ retries "Enter number: " (List.length ["abc"; "4.5"])
              ++ [Prompted "Enter number: "])).
Proof.
  refine (proj1 (get_int_input_after_invalid_lines
                   "Enter number: " [] ["abc"; "4.5"] 3 [] _ _)
                " 42 " 42 [] _).
  - repeat constructor.
  - simpl. lia.
  - reflexivity.
Defined.

Lemma get_int_input_outcome (fuel : nat) (prompt : string) :
  forall s,
    tasks (snd (get_int_input fuel prompt s)) = tasks s
    /\ match fst (get_int_input fuel prompt s) with
       | Ret _ | Raise EOFError | OutOfFuel => True
       | Raise (SystemExit code) =>
           code = 0 /\ last_written goodbye (snd (get_int_input fuel prompt s))
       | Raise _ => False
       end.
Proof.
  induction fuel as [|fuel IH]; intros [ts ins out].
  - cbn. now split.
  - destruct ins as [|[text|] rest].
    + rewrite get_int_input_eof. cbn. now split.
    + destruct (PyInt.parse text) as [v|] eqn:Hp.
      * rewrite (get_int_input_line_ok _ _ _ _ _ _ _ Hp). cbn. now split.
      * rewrite (get_int_input_line_bad _ _ _ _ _ _ Hp).
        match goal with
        | |- context [get_int_input fuel prompt ?st] =>
            destruct (IH st) as [Ht Ho]
        end.
        split; [rewrite Ht; reflexivity|exact Ho].
    + rewrite get_int_input_interrupt. cbn [fst snd tasks]. split; [reflexivity|].
      split; [reflexivity|]. exists (out ++ [Prompted prompt]).
      cbn [stdout]. now rewrite <- app_assoc.
Qed.

(** X10: whatever the input, [get_int_input] lets neither the
    [ValueError] of [int] nor the interrupt out: it returns an integer,
    or exits with status 0 right after the farewell, or meets the end of
    the input; and it leaves the task list alone. *)
Theorem get_int_input_outcomes (fuel : nat) (prompt : string) (s : state) :
  (List.length (stdin s) < fuel)%nat ->
  tasks (snd (get_int_input fuel prompt s)) = tasks s
  /\ ((exists n, fst (get_int_input fuel prompt s) = Ret n)
      \/ fst (get_int_input fuel prompt s) = Raise EOFError
      \/ (fst (get_int_input fuel prompt s) = Raise (SystemExit 0)
          /\ last_written goodbye (snd (get_int_input fuel prompt s)))).
Proof.
  intros Hfuel.
  destruct (get_int_input_outcome fuel prompt s) as [Htasks Hout].
  destruct (consuming_get_int_input fuel prompt s Hfuel) as [Hne _].
  split; [exact Htasks|].
  destruct (fst (get_int_input fuel prompt s)) as [n|[| | |code]|].
  - left. now exists n.
  - destruct Hout.
  - destruct Hout.
  - right. now left.
  - right. right. destruct Hout as [-> Hlast]. now split.
  - congruence.
Qed.

Lemma get_int_input_outcomes_witness :
  tasks (snd (get_int_input 3 "Id: "
                (mkState [mkTask 1 "a" "x" false] [Line "x"; Interrupt] [])))
  = tasks (mkState [mkTask 1 "a" "x" false] [Line "x"; Interrupt] [])
  /\ ((exists n,
          fst (get_int_input 3 "Id: "
                 (mkState [mkTask 1 "a" "x" false] [Line "x"; Interrupt] []))
          = Ret n)
      \/ fst (get_int_input 3 "Id: "
                (mkState [mkTask 1 "a" "x" false] [Line "x"; Interrupt] []))
         = Raise EOFError
      \/ (fst (get_int_input 3 "Id: "
                 (mkState [mkTask 1 "a" "x" false] [Line "x"; Interrupt] []))
          = Raise (SystemExit 0)
          /\ last_written goodbye
               (snd (get_int_input 3 "Id: "
                       (mkState [mkTask 1 "a" "x" false]
                                [Line "x"; Interrupt] []))))).
Proof.
  apply (get_int_input_outcomes 3 "Id: "
           (mkState [mkTask 1 "a" "x" false] [Line "x"; Interrupt] [])).
  simpl. lia.
Defined.

(** X11: a choice that [get_menu_choice] returns lies between 0 and 5,
    and getting it leaves the task list alone. *)
Theorem get_menu_choice_in_range (fuel : nat) (s s' : state) (choice : Z) :
  get_menu_choice fuel s = (Ret choice, s') ->
  (0 <= choice <= 5)%Z /\ tasks s' = tasks s.
Proof.
  revert s. induction fuel as [|fuel IH]; intros s; [discriminate|].
  cbn [get_menu_choice]. unfold bind at 1.
  assert (Hmenu : exists s0, display_menu s = (Ret tt, s0)
                             /\ tasks s0 = tasks s)
    by (eexists; split; reflexivity).
  destruct Hmenu as (s0 & -> & Hs0).
  unfold bind at 1.
  destruct (get_int_input_outcome (S fuel) "Choose an option: " s0)
    as [Htasks _].
  destruct (get_int_input (S fuel) "Choose an option: " s0) as [o1 s1].
  cbn [snd] in Htasks.
  destruct o1 as [c|e|]; [|discriminate|discriminate].
  destruct ((0 <=? c)%Z && (c <=? 5)%Z) eqn:Hrange.
  - intros [= <- <-]. apply andb_true_iff in Hrange as [H0 H5].
    apply Z.leb_le in H0. apply Z.leb_le in H5.
    split; [lia|congruence].
  - unfold bind at 1, print at 1. intros Hrec.
    destruct (IH _ Hrec) as [Hc Ht]. split; [exact Hc|].
    cbn [emit tasks] in Ht. congruence.
Qed.

(** 9 is refused, 5 is returned. *)
Lemma get_menu_choice_in_range_witness :
  (0 <= 5 <= 5)%Z
  /\ tasks (mkState [mkTask 1 "a" "x" false] []
              (menu_output
               ++ [Printed "Option 9 not valid. Please choose 0-5."]
               ++ menu_output))
     = tasks (mkState [mkTask 1 "a" "x" false] [Line "9"; Line "5"] []).
Proof.
  apply (get_menu_choice_in_range 3
           (mkState [mkTask 1 "a" "x" false] [Line "9"; Line "5"] [])).
  reflexivity.
Defined.

Lemma confirm_valid (fuel : nat) (prompt text : string) (b : bool)
      (ts : list task) (rest : list in_event) (out : list out_event) :
  confirm_answer (PyStr.lower text) = Some b ->
  confirm (S fuel) prompt (mkState ts (Line text :: rest) out)
  = (Ret b, mkState ts rest (out ++ [Prompted prompt])).
Proof.
  unfold confirm_answer. intros Hb. cbn [confirm]. run_step.
  destruct (String.eqb (PyStr.lower text) "y"
            || String.eqb (PyStr.lower text) "yes")%bool.
  - now injection Hb as <-.
  - destruct (String.eqb (PyStr.lower text) "n"
              || String.eqb (PyStr.lower text) "no")%bool;
      [now injection Hb as <-|discriminate].
Qed.

Lemma confirm_invalid (fuel : nat) (prompt text : string)
      (ts : list task) (rest : list in_event) (out : list out_event) :
  confirm_answer (PyStr.lower text) = None ->
  confirm (S fuel) prompt (mkState ts (Line text :: rest) out)
  = confirm fuel prompt
      (mkState ts rest (out ++ [Prompted prompt; invalid_answer])).
Proof.
  unfold confirm_answer. intros Hb. cbn [confirm]. run_step.
  destruct (String.eqb (PyStr.lower text) "y"
            || String.eqb (PyStr.lower text) "yes")%bool; [discriminate|].
  destruct (String.eqb (PyStr.lower text) "n"
            || String.eqb (PyStr.lower text) "no")%bool; [discriminate|].
  run_step. unfold invalid_answer. now rewrite <- app_assoc.
Qed.

(** X12: [confirm] reads answers without regard to capitals and asks
    again, without limit, for every answer that is none of [y], [yes],
    [n], [no]: after any number of such answers, each followed by the
    error line, it returns [True] for the first [y] or [yes] and [False]
    for the first [n] or [no]. *)
Theorem confirm_after_invalid_answers (prompt : string) (ts : list task)
        (bad : list string) (text : string) (b : bool)
        (rest : list in_event) :
  Forall (fun t => confirm_answer (PyStr.lower t) = None) bad ->
  confirm_answer (PyStr.lower text) = Some b ->
  forall fuel out,
    (List.length bad < fuel)%nat ->
    confirm fuel prompt (mkState ts (map Line bad ++ Line text :: rest) out)
    = (Ret b,
       mkState ts rest
               (out ++ answer_retries prompt (List.length bad)
                ++ [Prompted prompt])).
Proof.
  intros Hbad Hb. induction Hbad as [|t bad Ht _ IH]; intros fuel out Hfuel.
  - destruct fuel as [|fuel]; [inversion Hfuel|].
    cbn [map app List.length answer_retries]. now apply confirm_valid.
  - destruct fuel as [|fuel]; [inversion Hfuel|].
    cbn [map app List.length answer_retries].
    rewrite (confirm_invalid _ _ _ _ _ _ Ht), IH by (cbn in Hfuel; lia).
    now rewrite <- app_assoc.
Qed.

Lemma confirm_after_invalid_answers_witness :
  confirm 2 "Delete? (y/n): "
    (mkState [] (map Line ["maybe"] ++ Line "YeS" :: []) [])
  = (Ret true,
     mkState [] []
             ([] ++ answer_retries "Delete? (y/n): " (List.length ["maybe"])
              ++ [Prompted "Delete? (y/n): "])).
Proof.
  apply (confirm_after_invalid_answers "Delete? (y/n): " [] ["maybe"] "YeS"
           true []).
  - repeat constructor.
  - reflexivity.
  - simpl. lia.
Defined.

(** ** Writing an integer and reading it back *)

Lemma scan_digits (d : Decimal.uint) :
  forall acc count,
    PyInt.scan (NilEmpty.string_of_uint d) acc count false
    = Some (uint_value d acc, (count + Decimal.nb_digits d)%nat,
            EmptyString).
Proof.
  induction d; intros acc count;
    cbn [NilEmpty.string_of_uint PyInt.scan uint_value Decimal.nb_digits];
    [now rewrite Nat.add_0_r|..];
    match goal with
    | |- context [PyInt.digit ?c] =>
        let v := eval vm_compute in (PyInt.digit c) in
        change (PyInt.digit c) with v
    end;
    cbv beta iota; rewrite IHd, ?Z.add_0_r, Nat.add_succ_r; reflexivity.
Qed.

Lemma uint_value_pos (d : Decimal.uint) :
  forall acc, uint_value d (Z.pos acc) = Z.pos (Pos.of_uint_acc d acc).
Proof.
  induction d; intros acc; cbn [uint_value Pos.of_uint_acc];
    [reflexivity|..]; rewrite <- IHd; f_equal; lia.
Qed.

Lemma uint_value_0 (d : Decimal.uint) :
  uint_value d 0 = Z.of_N (Pos.of_uint d).
Proof.
  induction d; cbn [uint_value Pos.of_uint]; [reflexivity|exact IHd|..];
    cbn [Z.mul Z.add Z.of_N]; apply uint_value_pos.
Qed.

Lemma parse_unsigned_digits (d : Decimal.uint) :
  d <> Decimal.Nil ->
  (Decimal.nb_digits d <= PyInt.max_str_digits)%nat ->
  PyInt.parse_unsigned (NilEmpty.string_of_uint d) = Some (uint_value d 0).
Proof.
  intros Hd Hmax.
  assert (Hhead : exists c r,
             NilEmpty.string_of_uint d = String c r
             /\ PyInt.is_underscore c = false)
    by (destruct d; [contradiction|..]; eexists _, _; split; reflexivity).
  destruct Hhead as (c & r & Hs & Hc).
  unfold PyInt.parse_unsigned. rewrite Hs, Hc, <- Hs, scan_digits.
  cbn [Nat.add PyInt.only_space].
  assert (Hpos : Nat.eqb (Decimal.nb_digits d) 0 = false)
    by (apply Nat.eqb_neq; destruct d; [contradiction|..]; discriminate).
  assert (Hlim : Nat.ltb PyInt.max_str_digits (Decimal.nb_digits d) = false)
    by (apply Nat.ltb_ge; exact Hmax).
  now rewrite Hpos, Hlim.
Qed.

Lemma parse_positive (p : positive) :
  (Decimal.nb_digits (Pos.to_uint p) <= PyInt.max_str_digits)%nat ->
  PyInt.parse_unsigned (NilZero.string_of_uint (Pos.to_uint p))
  = Some (Z.pos p)
  /\ PyInt.parse (NilZero.string_of_uint (Pos.to_uint p))
     = PyInt.parse_unsigned (NilZero.string_of_uint (Pos.to_uint p)).
Proof.
  intros Hmax. pose proof (Unsigned.to_uint_nonnil p) as Hnil.
  pose proof (Unsigned.of_to p) as Hval.
  pose proof (parse_unsigned_digits _ Hnil Hmax) as Hparse.
  rewrite uint_value_0, Hval in Hparse. cbn [Z.of_N] in Hparse.
  destruct (Pos.to_uint p); [contradiction|..];
    (split; [exact Hparse|reflexivity]).
Qed.

Lemma parse_of_int_digits (n : Z) :
  (decimal_digits n <= PyInt.max_str_digits)%nat ->
  PyInt.parse (PyStr.of_int n) = Some n.
Proof.
  unfold decimal_digits, PyStr.of_int.
  destruct n as [|p|p]; cbn [Z.to_int NilZero.string_of_int]; intros Hmax.
  - reflexivity.
  - destruct (parse_positive p Hmax) as [Hval Hsame].
    now rewrite Hsame.
  - destruct (parse_positive p Hmax) as [Hval _].
    change (PyInt.parse (String "-" (NilZero.string_of_uint (Pos.to_uint p))))
      with (option_map Z.opp
              (PyInt.parse_unsigned
                 (NilZero.string_of_uint (Pos.to_uint p)))).
    now rewrite Hval.
Qed.

(** X13: an integer of at most 4300 digits, typed at an integer prompt
    the way the messages of the program show it, is read back by
    [get_int_input] as the same integer, at the first try: the id that
    [Task added successfully (ID: <n>).] shows selects that task. *)
Theorem get_int_input_reads_shown_id (n : Z) (fuel : nat) (prompt : string)
        (s : state) (rest : list in_event) :
  (decimal_digits n <= PyInt.max_str_digits)%nat ->
  stdin s = Line (PyStr.of_int n) :: rest ->
  PyInt.parse (PyStr.of_int n) = Some n
  /\ get_int_input (S fuel) prompt s
     = (Ret n, mkState (tasks s) rest (stdout s ++ [Prompted prompt])).
Proof.
  destruct s as [ts ins out]. cbn [tasks stdin stdout]. intros Hmax ->.
  pose proof (parse_of_int_digits n Hmax) as Hp.
  split; [exact Hp|]. now apply get_int_input_line_ok.
Qed.

Lemma get_int_input_reads_shown_id_witness :
  PyInt.parse (PyStr.of_int (-1205)) = Some (-1205)
  /\ get_int_input 1 "Enter task ID to toggle: "
       (mkState [] [Line (PyStr.of_int (-1205))] [])
     = (Ret (-1205),
        mkState [] [] ([] ++ [Prompted "Enter task ID to toggle: "])).
Proof.
  apply (get_int_input_reads_shown_id (-1205) 0 "Enter task ID to toggle: "
           (mkState [] [Line (PyStr.of_int (-1205))] []) []).
  - apply Nat.leb_le. reflexivity.
  - reflexivity.
Defined.

(** ** Every run of the program *)

Lemma keeps_bind {A B : Type} (P : list task -> Prop) (m : M A)
      (k : A -> M B) :
  keeps P m -> (forall a, keeps P (k a)) -> keeps P (bind m k).
Proof.
  intros Hm Hk s HP. specialize (Hm s HP). unfold bind.
  destruct (m s) as [[a|e|] s1]; cbn [snd] in *;
    [apply Hk; exact Hm|exact Hm|exact Hm].
Qed.

Lemma keeps_same {A : Type} (P : list task -> Prop) (m : M A) :
  (forall s, tasks (snd (m s)) = tasks s) -> keeps P m.
Proof. intros H s HP. now rewrite H. Qed.

Lemma keeps_print (P : list task -> Prop) (text : string) :
  keeps P (print text).
Proof. now apply keeps_same. Qed.

Lemma keeps_ret {A : Type} (P : list task -> Prop) (a : A) : keeps P (ret a).
Proof. now apply keeps_same. Qed.

Lemma keeps_read_stripped (P : list task -> Prop) (prompt : string) :
  keeps P (bind (input prompt) (fun l => ret (PyStr.strip l))).
Proof.
  apply keeps_same. intros [ts [|[text|] rest] out]; reflexivity.
Qed.

Lemma keeps_get_int_input (P : list task -> Prop) (fuel : nat)
      (prompt : string) :
  keeps P (get_int_input fuel prompt).
Proof. apply keeps_same. intros s. apply get_int_input_outcome. Qed.

Lemma keeps_get_menu_choice (P : list task -> Prop) (fuel : nat) :
  keeps P (get_menu_choice fuel).
Proof.
  induction fuel as [|fuel IH]; [now apply keeps_same|].
  cbn [get_menu_choice].
  apply keeps_bind; [now apply keeps_same|intros _].
  apply keeps_bind; [apply keeps_get_int_input|intros choice].
  destruct ((0 <=? choice)%Z && (choice <=? 5)%Z); [apply keeps_ret|].
  apply keeps_bind; [apply keeps_print|intros _; exact IH].
Qed.

Lemma assign_found_ids (f : task -> task) (l : list task) (k : Z) :
  (forall t, id (f t) = id t) ->
  map id (assign_found f l k) = map id l.
Proof.
  intros Hf. induction l as [|t rest IH]; [reflexivity|].
  cbn [assign_found]. destruct (id t =? k)%Z; cbn [map].
  - now rewrite Hf.
  - now rewrite IH.
Qed.

Lemma keeps_assign (f : task -> task) (k : Z) :
  (forall t, id (f t) = id t) ->
  keeps ids_ok (fun s => (Ret tt, set_tasks (assign_found f (tasks s) k) s)).
Proof.
  intros Hf s. cbn [snd set_tasks tasks]. unfold ids_ok.
  now rewrite (assign_found_ids f _ k Hf).
Qed.

Lemma list_remove_split (t : task) (l l' : list task) :
  list_remove t l = Some l' ->
  exists l1 u l2, l = l1 ++ u :: l2 /\ l' = l1 ++ l2.
Proof.
  revert l'. induction l as [|y rest IH]; intros l'; [discriminate|].
  cbn [list_remove]. destruct (task_eqb y t).
  - intros [= <-]. now exists [], y, rest.
  - destruct (list_remove t rest) as [rest'|]; [|discriminate].
    intros [= <-]. destruct (IH rest' eq_refl) as (l1 & u & l2 & -> & ->).
    now exists (y :: l1), u, l2.
Qed.

Lemma ids_ok_without (l1 l2 : list task) (u : task) :
  ids_ok (l1 ++ u :: l2) -> ids_ok (l1 ++ l2).
Proof.
  unfold ids_ok. rewrite !map_app. cbn [map]. intros [Hnd Hpos]. split.
  - now apply NoDup_remove_1 in Hnd.
  - apply Forall_app in Hpos as [H1 H2]. apply Forall_app. split; [exact H1|].
    now inversion H2.
Qed.

Lemma get_next_id_positive (l : list task) :
  Forall (fun k => 0 < k)%Z (map id l) -> (0 < get_next_id l)%Z.
Proof.
  destruct l as [|t rest]; [reflexivity|]. intros Hpos.
  pose proof (get_next_id_above (t :: rest) t (or_introl eq_refl)) as Hlt.
  inversion Hpos; subst. lia.
Qed.

Lemma ids_ok_with_next (l : list task) (a b : string) (c : bool) :
  ids_ok l -> ids_ok (l ++ [mkTask (get_next_id l) a b c]).
Proof.
  unfold ids_ok. rewrite map_app. cbn [map id]. intros [Hnd Hpos]. split.
  - apply NoDup_app; [exact Hnd|repeat constructor; intros []|].
    intros k Hk [<-|[]]. now apply (get_next_id_fresh l).
  - apply Forall_app. split; [exact Hpos|].
    repeat constructor. now apply get_next_id_positive.
Qed.

Lemma keeps_add_task : keeps ids_ok add_task.
Proof.
  intros [ts ins out]. cbn [tasks]. intros Hok.
  destruct ins as [|[a|] rest]; [| destruct rest as [|[b|] rest] |];
    try exact Hok.
  rewrite add_task_run. cbn [snd tasks]. now apply ids_ok_with_next.
Qed.

Lemma keeps_for_each {A : Type} (P : list task -> Prop) (xs : list A)
      (body : A -> M unit) :
  (forall x, keeps P (body x)) -> keeps P (for_each xs body).
Proof.
  intros Hb. induction xs as [|x rest IH]; cbn [for_each].
  - apply keeps_ret.
  - apply keeps_bind; [apply Hb|intros _; exact IH].
Qed.

Lemma keeps_print_tasks (P : list task -> Prop) : keeps P print_tasks.
Proof.
  unfold print_tasks. apply keeps_bind; [now apply keeps_same|].
  intros [|t rest]; [apply keeps_print|].
  do 2 (apply keeps_bind; [apply keeps_print|intros _]).
  apply keeps_for_each. intros x. apply keeps_print.
Qed.

Lemma keeps_delete_task (k : Z) : keeps ids_ok (delete_task k).
Proof.
  unfold delete_task. apply keeps_bind; [now apply keeps_same|intros ts].
  destruct (find_task ts k) as [t|].
  - apply keeps_bind; [|intros; apply keeps_ret].
    intros s Hok. unfold remove.
    destruct (list_remove t (tasks s)) as [l'|] eqn:Hrem; [|exact Hok].
    cbn [snd set_tasks tasks].
    destruct (list_remove_split _ _ _ Hrem) as (l1 & u & l2 & Hl & ->).
    rewrite Hl in Hok. now apply ids_ok_without in Hok.
  - apply keeps_bind; [apply keeps_print|intros; apply keeps_ret].
Qed.

Lemma keeps_update_task (k : Z) : keeps ids_ok (update_task k).
Proof.
  unfold update_task. apply keeps_bind; [now apply keeps_same|intros ts].
  destruct (find_task ts k) as [t|].
  - do 2 (apply keeps_bind; [apply keeps_print|intros _]).
    do 2 (apply keeps_bind; [apply keeps_read_stripped|intros ?]).
    apply keeps_bind.
    { destruct (PyStr.truthy a); [|apply keeps_ret].
      apply keeps_bind; [now apply keeps_assign|intros; apply keeps_ret]. }
    intros c1. apply keeps_bind.
    { destruct (PyStr.truthy a0); [|apply keeps_ret].
      apply keeps_bind; [now apply keeps_assign|intros; apply keeps_ret]. }
    intros c2. apply keeps_bind; [|intros; apply keeps_ret].
    destruct c2; [apply keeps_print|apply keeps_ret].
  - apply keeps_bind; [apply keeps_print|intros; apply keeps_ret].
Qed.

Lemma keeps_toggle_complete (k : Z) : keeps ids_ok (toggle_complete k).
Proof.
  unfold toggle_complete. apply keeps_bind; [now apply keeps_same|intros ts].
  destruct (find_task ts k) as [t|].
  - apply keeps_bind; [now apply keeps_assign|intros _].
    apply keeps_bind; [|intros; apply keeps_ret].
    destruct (complete _); apply keeps_print.
  - apply keeps_bind; [apply keeps_print|intros; apply keeps_ret].
Qed.

Lemma keeps_prompted {A : Type} (fuel : nat) (prompt : string)
      (op : Z -> M A) :
  (forall k, keeps ids_ok (op k)) ->
  keeps ids_ok (bind (get_int_input fuel prompt)
                     (fun task_id => bind (op task_id) (fun _ => ret tt))).
Proof.
  intros Hop. apply keeps_bind; [apply keeps_get_int_input|intros k].
  apply keeps_bind; [apply Hop|intros; apply keeps_ret].
Qed.

Lemma keeps_main_loop (fuel : nat) : keeps ids_ok (main_loop fuel).
Proof.
  induction fuel as [|fuel IH]; [now apply keeps_same|].
  cbn [main_loop].
  apply keeps_bind; [apply keeps_get_menu_choice|intros choice].
  destruct (choice =? 0)%Z; [apply keeps_ret|].
  apply keeps_bind; [|intros _; exact IH].
  destruct (choice =? 1)%Z; [apply keeps_add_task|].
  destruct (choice =? 2)%Z; [apply keeps_print_tasks|].
  destruct (choice =? 3)%Z; [apply keeps_prompted, keeps_update_task|].
  destruct (choice =? 4)%Z; [apply keeps_prompted, keeps_delete_task|].
  destruct (choice =? 5)%Z; [apply keeps_prompted, keeps_toggle_complete|].
  apply keeps_ret.
Qed.

(** X14: whatever is typed and however the run ends, the task list of the
    program holds pairwise distinct, positive ids. *)
Theorem run_keeps_ids_ok (events : list in_event) :
  ids_ok (tasks (snd (run events))).
Proof.
  unfold run, main.
  apply (keeps_bind ids_ok).
  - intros s _. cbn [snd set_tasks tasks]. split; constructor.
  - intros _. apply keeps_bind; [apply keeps_main_loop|intros _].
    apply keeps_print.
  - cbn [tasks]. split; constructor.
Qed.


















(** ** Texts stored by an addition *)

Lemma lstrip_fixed (s : string) :
  PyStr.starts_with_space s = false -> PyStr.lstrip s = s.
Proof. destruct s as [|c r]; cbn; [reflexivity|]. now intros ->. Qed.

Lemma rstrip_fixed (s : string) :
  PyStr.ends_with_space s = false -> PyStr.rstrip s = s.
Proof.
  induction s as [|c r IH]; [reflexivity|].
  cbn [PyStr.ends_with_space PyStr.rstrip]. destruct r as [|c' r'].
  - cbn [PyStr.rstrip]. now intros ->.
  - intros Hr. now rewrite (IH Hr).
Qed.

Lemma strip_idempotent (s : string) :
  PyStr.strip (PyStr.strip s) = PyStr.strip s.
Proof.
  destruct (strip_trimmed s) as [Hhead Htail].
  unfold PyStr.strip at 1. now rewrite (lstrip_fixed _ Hhead), rstrip_fixed.
Qed.

(** X16: [add_task] stores the two lines stripped: the stored title and
    description neither start nor end with whitespace and stripping them
    again changes nothing.  Nothing is refused: a blank title line is
    stored as the empty title. *)
Theorem add_task_stores_stripped (s : state) (a b : string)
        (rest : list in_event) :
  stdin s = Line a :: Line b :: rest ->
  exists s' t,
    add_task s = (Ret tt, s')
    /\ tasks s' = tasks s ++ [t]
    /\ title t = PyStr.strip a /\ desc t = PyStr.strip b
    /\ PyStr.starts_with_space (title t) = false
    /\ PyStr.ends_with_space (title t) = false
    /\ PyStr.starts_with_space (desc t) = false
    /\ PyStr.ends_with_space (desc t) = false
    /\ PyStr.strip (title t) = title t
    /\ PyStr.strip (desc t) = desc t
    /\ (PyStr.all_space a = true -> title t = EmptyString).
Proof.
  destruct s as [ts ins out]. cbn [tasks stdin]. intros ->.
  eexists _, _. split; [apply add_task_run|]. cbn [tasks title desc].
  destruct (strip_trimmed a) as [Ha1 Ha2].
  destruct (strip_trimmed b) as [Hb1 Hb2].
  repeat split; try assumption; try apply strip_idempotent.
  apply strip_all_space.
Qed.

Lemma add_task_stores_stripped_witness :
  exists s' t,
    add_task (mkState [] [Line "   "; Line "  Milk, eggs  "] [])
    = (Ret tt, s')
    /\ tasks s' = [] ++ [t]
    /\ title t = PyStr.strip "   " /\ desc t = PyStr.strip "  Milk, eggs  "
    /\ PyStr.starts_with_space (title t) = false
    /\ PyStr.ends_with_space (title t) = false
    /\ PyStr.starts_with_space (desc t) = false
    /\ PyStr.ends_with_space (desc t) = false
    /\ PyStr.strip (title t) = title t
    /\ PyStr.strip (desc t) = desc t
    /\ (PyStr.all_space "   " = true -> title t = EmptyString).
Proof.
  exact (add_task_stores_stripped
           (mkState [] [Line "   "; Line "  Milk, eggs  "] [])
           "   " "  Milk, eggs  " [] eq_refl).
Defined.

(** ** The menu prompt *)

Lemma get_menu_choice_accepts (fuel : nat) (text : string) (c : Z)
      (ts : list task) (rest : list in_event) (out : list out_event) :
  PyInt.parse text = Some c -> (0 <= c <= 5)%Z ->
  get_menu_choice (S fuel) (mkState ts (Line text :: rest) out)
  = (Ret c, mkState ts rest (out ++ menu_output)).
Proof.
  intros Hp Hc. cbn [get_menu_choice].
  erewrite bind_Ret by reflexivity.
  erewrite bind_Ret by (apply get_int_input_line_ok; exact Hp).
  replace ((0 <=? c)%Z && (c <=? 5)%Z) with true
    by (symmetry; apply andb_true_iff; split; apply Z.leb_le; lia).
  unfold ret, menu_output, newline. state_simpl.
  now rewrite <- !app_assoc.
Qed.

Lemma get_menu_choice_refuses (fuel : nat) (text : string) (n : Z)
      (ts : list task) (rest : list in_event) (out : list out_event) :
  PyInt.parse text = Some n -> (n < 0 \/ 5 < n)%Z ->
  get_menu_choice (S fuel) (mkState ts (Line text :: rest) out)
  = get_menu_choice fuel
      (mkState ts rest (out ++ menu_output ++ [refusal n])).
Proof.
  intros Hp Hn. cbn [get_menu_choice].
  erewrite bind_Ret by reflexivity.
  erewrite bind_Ret by (apply get_int_input_line_ok; exact Hp).
  replace ((0 <=? n)%Z && (n <=? 5)%Z) with false
    by (symmetry; apply andb_false_iff;
        destruct Hn; [left; apply Z.leb_gt|right; apply Z.leb_gt]; lia).
  run_step. unfold menu_output, newline, refusal. state_simpl.
  now rewrite <- !app_assoc.
Qed.

(** X17: [get_menu_choice] refuses every integer outside 0..5 with the
    line [Option <n> not valid. Please choose 0-5.], shows the menu again
    and asks again, without limit; the first integer between 0 and 5 is
    returned. *)
Theorem get_menu_choice_after_refusals (ts : list task)
        (bad : list (string * Z)) (text : string) (c : Z)
        (rest : list in_event) :
  Forall refused_choice bad ->
  PyInt.parse text = Some c -> (0 <= c <= 5)%Z ->
  forall fuel out,
    (List.length bad < fuel)%nat ->
    get_menu_choice fuel
      (mkState ts (map (fun e => Line (fst e)) bad ++ Line text :: rest) out)
    = (Ret c,
       mkState ts rest (out ++ refusals (map snd bad) ++ menu_output)).
Proof.
  intros Hbad Hp Hc.
  induction Hbad as [|[t n] bad [Ht Hn] _ IH]; intros fuel out Hfuel;
    (destruct fuel as [|fuel]; [inversion Hfuel|]);
    cbn [map app List.length refusals fst snd] in *.
  - now apply get_menu_choice_accepts.
  - rewrite (get_menu_choice_refuses _ _ _ _ _ _ Ht Hn), IH by lia.
    now rewrite <- !app_assoc.
Qed.

Lemma get_menu_choice_after_refusals_witness :
  get_menu_choice 3
    (mkState [] (map (fun e => Line (fst e)) [("9", 9%Z); ("-1", (-1)%Z)]
                 ++ Line "2" :: []) [])
  = (Ret 2,
     mkState [] []
             ([] ++ refusals (map snd [("9", 9%Z); ("-1", (-1)%Z)])
              ++ menu_output)).
Proof.
  apply (get_menu_choice_after_refusals [] [("9", 9%Z); ("-1", (-1)%Z)]
           "2" 2 []).
  - repeat constructor; cbn; lia.
  - reflexivity.
  - lia.
  - simpl. lia.
Defined.

(** ** Blank lines at an integer prompt *)

Lemma skip_only_space (text : string) :
  PyInt.only_space text = true -> PyInt.skip_space text = EmptyString.
Proof.
  induction text as [|c r IH]; [reflexivity|].
  cbn [PyInt.only_space PyInt.skip_space].
  destruct (PyInt.is_space c); [exact IH|discriminate].
Qed.

(** X18: a line that is empty or made of blanks only is no integer:
    [get_int_input] answers it with the error line and asks again, so
    pressing Enter at a prompt for a task id selects nothing. *)
Theorem get_int_input_blank_line (fuel : nat) (prompt text : string)
        (s : state) (rest : list in_event) :
  PyInt.only_space text = true ->
  stdin s = Line text :: rest ->
  get_int_input (S fuel) prompt s
  = get_int_input fuel prompt
      (mkState (tasks s) rest
               (stdout s ++ [Prompted prompt; invalid_integer])).
Proof.
  destruct s as [ts ins out]. cbn [tasks stdin stdout]. intros Hblank ->.
  apply get_int_input_line_bad. unfold PyInt.parse.
  now rewrite (skip_only_space _ Hblank).
Qed.

(** Enter alone, then 7. *)
Lemma get_int_input_blank_line_witness :
  get_int_input 2 "Enter task ID to delete: "
    (mkState [] [Line EmptyString; Line "7"] [])
  = get_int_input 1 "Enter task ID to delete: "
      (mkState [] [Line "7"]
               ([] ++ [Prompted "Enter task ID to delete: ";
                       invalid_integer])).
Proof.
  apply (get_int_input_blank_line 1 "Enter task ID to delete: " EmptyString
           (mkState [] [Line EmptyString; Line "7"] []) [Line "7"]);
    reflexivity.
Defined.

(** ** Two more compositions *)

(** X19: adding a task and then deleting the id it was given leaves the
    task list exactly as it was before the addition. *)
Theorem add_then_delete_restores (s : state) (a b : string)
        (rest : list in_event) :
  stdin s = Line a :: Line b :: rest ->
  bind add_task (fun _ => delete_task (get_next_id (tasks s))) s
  = (Ret true,
     mkState (tasks s) rest
             (stdout s
              ++ [Prompted "Title: "; Prompted "Description: ";
                  Printed (added_message (get_next_id (tasks s)))])).
Proof.
  destruct s as [ts ins out]. cbn [tasks stdin stdout]. intros ->.
  erewrite bind_Ret by apply add_task_run.
  assert (Hnone : find_task ts (get_next_id ts) = None)
    by (apply find_task_None, get_next_id_fresh).
  rewrite (delete_task_run ts []
             (mkTask (get_next_id ts) (PyStr.strip a) (PyStr.strip b) false)
             _ _ Hnone).
  now rewrite app_nil_r.
Qed.

Lemma add_then_delete_restores_witness :
  bind add_task
    (fun _ => delete_task (get_next_id [mkTask 2 "a" "x" true]))
    (mkState [mkTask 2 "a" "x" true] [Line "b"; Line "y"] [])
  = (Ret true,
     mkState [mkTask 2 "a" "x" true] []
             ([] ++ [Prompted "Title: "; Prompted "Description: ";
                     Printed (added_message
                                (get_next_id [mkTask 2 "a" "x" true]))])).
Proof.
  exact (add_then_delete_restores
           (mkState [mkTask 2 "a" "x" true] [Line "b"; Line "y"] [])
           "b" "y" [] eq_refl).
Defined.

(** X20: [update_task] counts a field as changed when a text was entered
    for it, not when the text differs: entering the current title again
    prints [Task updated.] although the task list is what it was. *)
Theorem update_task_same_title_reports_change (s : state) (k : Z) (t : task)
        (a b : string) (rest : list in_event) :
  find_task (tasks s) k = Some t ->
  stdin s = Line a :: Line b :: rest ->
  PyStr.strip a = title t -> title t <> EmptyString ->
  PyStr.strip b = EmptyString ->
  update_task k s
  = (Ret true,
     mkState (tasks s) rest
             (stdout s ++ update_prompts t ++ [Printed "Task updated."])).
Proof.
  destruct s as [ts ins out]. cbn [tasks stdin stdout].
  intros Hf -> Ha Hne Hb.
  destruct (find_task_split _ _ _ Hf) as (l1 & l2 & -> & <- & Hnone).
  rewrite (update_task_run l1 l2 t a b rest out Hnone).
  unfold updated, replaces_a_field. rewrite Ha, Hb.
  destruct t as [i ti de c]. cbn [title desc id complete PyStr.truthy] in *.
  destruct ti as [|c0 r0]; [congruence|reflexivity].
Qed.

Lemma update_task_same_title_reports_change_witness :
  update_task 1 (mkState [mkTask 1 "A" "B" false]
                         [Line " A "; Line EmptyString] [])
  = (Ret true,
     mkState (tasks (mkState [mkTask 1 "A" "B" false]
                             [Line " A "; Line EmptyString] []))
             []
             (stdout (mkState [mkTask 1 "A" "B" false]
                              [Line " A "; Line EmptyString] [])
              ++ update_prompts (mkTask 1 "A" "B" false)
              ++ [Printed "Task updated."])).
Proof.
  apply (update_task_same_title_reports_change
           (mkState [mkTask 1 "A" "B" false]
                    [Line " A "; Line EmptyString] [])
           1 (mkTask 1 "A" "B" false) " A " EmptyString []);
    try reflexivity.
  discriminate.
Defined.
